(** * LangSmith alert handler

    A shallow embedding of [src/utils/langsmith_monitor.py] and the
    properties of its alert-evaluation and dispatch engine.

    Conventions of the model:
    - a Python [float] (clock readings, durations, thresholds, timeouts) is
      an IEEE 754 binary64 value, [spec_float] of the standard library, with
      its rounding arithmetic and its comparisons;
    - a [str] is the sequence of bytes of its UTF-8 encoding;
    - the reading [time.perf_counter()] gives during a handler call is an
      argument of the call;
    - the methods live in a state and exception monad over the handler's
      [_start_times] dict and the trace of calls made to the logger, to
      [requests] and to [smtplib]; the outside world decides, from the
      trace, how each outbound call ends, and the address parser of the
      [email] package is taken as given;
    - [AlertConfig.from_env] and the handler's constructor only build the
      configuration value and the empty dict; the configuration is a
      parameter. *)

From Stdlib Require Import ZArith String Ascii List Bool Lia.
From Stdlib Require Import SpecFloat Zpower DecimalString DecimalPos DecimalZ.
From stdpp Require Import gmap strings.

Set Warnings "-register-all".
Local Open Scope Z_scope.

(** ** Floats

    The binary64 format: 53 bits of precision, exponents below 1024.
    [sub] and [mul] are the correctly rounded subtraction and product (to
    nearest, ties to even); [leb] and [ltb] are the IEEE comparisons, false
    on NaN. *)

Module Float.

Definition prec : Z := 53.
Definition emax : Z := 1024.

Definition float : Type := spec_float.

Definition zero : float := S754_zero false.

Definition sub (x y : float) : float := SFsub prec emax x y.
Definition mul (x y : float) : float := SFmul prec emax x y.
Definition leb (x y : float) : bool := SFleb x y.
Definition ltb (x y : float) : bool := SFltb x y.

(** [float(n)] for an integer [n], and the float nearest to [num / den],
    which is what a decimal literal such as [2.5] or [0.1] denotes. *)
Definition of_Z (n : Z) : float := binary_normalize prec emax n 0 false.
Definition of_ratio (num den : Z) : float := SFdiv prec emax (of_Z num) (of_Z den).

(** The triples that are binary64 values, and those that are numbers. *)
Definition well_formed (x : float) : bool := valid_binary prec emax x.

Definition is_finite (x : float) : bool :=
  match x with
  | S754_zero _ | S754_finite _ _ _ => true
  | _ => false
  end.

Definition is_nan (x : float) : bool :=
  match x with
  | S754_nan => true
  | _ => false
  end.

End Float.

(** ** Python values

    The response handed to the handler is typed [Any]; the code inspects it
    with [getattr], [isinstance], [dict.get], truthiness and [for] loops.
    The fragment of Python values these operations can tell apart is
    modelled by [pyval]: a dict by its entries in insertion order (string
    keys, first binding found by lookup), an object by its attribute
    table. *)

Module Py.

Inductive pyval : Type :=
| PyNone
| PyBool (b : bool)
| PyInt (n : Z)
| PyFloat (x : Float.float)
| PyStr (s : string)
| PyList (items : list pyval)
| PyDict (entries : list (string * pyval))
| PyObject (attrs : list (string * pyval)).

(** The values for which [isinstance(v, int)] holds: [int] and its
    subclass [bool]. *)
Inductive pyint : Type :=
| IntV (n : Z)
| BoolV (b : bool).

(** Exceptions that the modelled code can meet.  [SMTPException] stands for
    whatever a call into [smtplib] raises, [RequestException] for the
    exceptions of [requests] that derive from that class.  [IndexError] and
    [AttributeError] are what the address parser of the [email] package
    fails with on some malformed addresses, [OverflowError] what a socket
    raises for a timeout too long for it. *)
Inductive exn : Type :=
| TypeError
| ValueError
| IndexError
| AttributeError
| OverflowError
| RequestException (detail : string)
| SMTPException (detail : string).

Inductive result (A : Type) : Type :=
| Ok (a : A)
| Raise (e : exn).
Arguments Ok {A} a.
Arguments Raise {A} e.

(** [bool(v)]: the truth value Python gives to [v]. *)
Definition truthy (v : pyval) : bool :=
  match v with
  | PyNone => false
  | PyBool b => b
  | PyInt n => negb (n =? 0)
  | PyFloat x => match x with S754_zero _ => false | _ => true end
  | PyStr s => negb (String.eqb s "")
  | PyList items => negb (Nat.eqb (length items) 0)
  | PyDict entries => negb (Nat.eqb (length entries) 0)
  | PyObject _ => true
  end.

(** [a or b]. *)
Definition py_or (a b : pyval) : pyval := if truthy a then a else b.

(** First binding of [key] in an association list. *)
Fixpoint assoc (key : string) (kvs : list (string * pyval)) : option pyval :=
  match kvs with
  | [] => None
  | (k, v) :: rest => if String.eqb k key then Some v else assoc key rest
  end.

(** [getattr(v, name, default)]: only objects carry the attributes the
    handler asks for. *)
Definition getattr (v : pyval) (name : string) (default : pyval) : pyval :=
  match v with
  | PyObject attrs =>
      match assoc name attrs with Some a => a | None => default end
  | _ => default
  end.

(** [d.get(key)] on the entries of a dict. *)
Definition dict_get (entries : list (string * pyval)) (key : string) : pyval :=
  match assoc key entries with Some v => v | None => PyNone end.

(** [isinstance(v, int)], keeping the value when it holds. *)
Definition as_int (v : pyval) : option pyint :=
  match v with
  | PyInt n => Some (IntV n)
  | PyBool b => Some (BoolV b)
  | _ => None
  end.

(** The number an [int] (or [bool]) stands for in a comparison. *)
Definition int_value (t : pyint) : Z :=
  match t with
  | IntV n => n
  | BoolV b => if b then 1 else 0
  end.

Fixpoint chars (s : string) : list pyval :=
  match s with
  | EmptyString => []
  | String c rest => PyStr (String c EmptyString) :: chars rest
  end.

(** The items a [for] loop draws from [v]; [None] when [v] is not
    iterable and the loop raises [TypeError]. *)
Definition iterate (v : pyval) : option (list pyval) :=
  match v with
  | PyList items => Some items
  | PyStr s => Some (chars s)
  | PyDict entries => Some (map (fun kv => PyStr (fst kv)) entries)
  | _ => None
  end.

End Py.
Import Py.

(** ** Token extraction ([_extract_total_tokens]) *)

(** The [total_tokens] entry read from one generation record, if it is an
    integer (body of the inner loop). *)
Definition generation_total (generation : pyval) : option pyint :=
  let message := getattr generation "message" PyNone in
  let usage_metadata := getattr message "usage_metadata" PyNone in
  match usage_metadata with
  | PyDict u => as_int (dict_get u "total_tokens")
  | _ => None
  end.

(** Inner loop [for generation in generation_group], returning on the
    first hit. *)
Fixpoint scan_group (group : list pyval) : option pyint :=
  match group with
  | [] => None
  | generation :: rest =>
      match generation_total generation with
      | Some total => Some total
      | None => scan_group rest
      end
  end.

(** Outer loop [for generation_group in generations]. *)
Fixpoint scan_generations (generations : list pyval) : result (option pyint) :=
  match generations with
  | [] => Ok None
  | generation_group :: rest =>
      match iterate generation_group with
      | None => Raise TypeError
      | Some group =>
          match scan_group group with
          | Some total => Ok (Some total)
          | None => scan_generations rest
          end
      end
  end.

(** Lines 85-90: the [llm_output] strategy. *)
Definition llm_output_total (response : pyval) : option pyint :=
  let llm_output := py_or (getattr response "llm_output" PyNone) (PyDict []) in
  match llm_output with
  | PyDict d =>
      let usage :=
        py_or (dict_get d "token_usage") (py_or (dict_get d "usage") (PyDict [])) in
      let total :=
        match usage with
        | PyDict u => dict_get u "total_tokens"
        | _ => PyNone
        end in
      as_int total
  | _ => None
  end.

Definition _extract_total_tokens (response : pyval) : result (option pyint) :=
  match llm_output_total response with
  | Some total => Ok (Some total)
  | None =>
      let generations := py_or (getattr response "generations" PyNone) (PyList []) in
      match iterate generations with
      | None => Raise TypeError
      | Some groups => scan_generations groups
      end
  end.

(** ** Rendering numbers

    [str(n)] for an [int], [str(b)] for a [bool], and the [:.2f] format of
    a [float]: two decimals, the exact value [m * 2 ^ e] rounded half to
    even, the sign kept; [nan] and [inf] for the values that are not
    numbers. *)

Definition str_of_Z (n : Z) : string := NilZero.string_of_int (Z.to_int n).

Definition py_str_int (t : pyint) : string :=
  match t with
  | IntV n => str_of_Z n
  | BoolV true => "True"
  | BoolV false => "False"
  end.

(** [round_half_even num den] is the integer nearest to [num / den]
    ([0 <= num], [0 < den]), ties going to the even one. *)
Definition round_half_even (num den : Z) : Z :=
  let f := num / den in
  let r := num mod den in
  match 2 * r ?= den with
  | Lt => f
  | Gt => f + 1
  | Eq => if Z.even f then f else f + 1
  end.

Definition two_digits (n : Z) : string :=
  if n <? 10 then "0" +:+ str_of_Z n else str_of_Z n.

Definition sign_text (negative : bool) : string := if negative then "-" else "".

Definition format_2f (x : Float.float) : string :=
  match x with
  | S754_nan => "nan"
  | S754_infinity s => sign_text s +:+ "inf"
  | S754_zero s => sign_text s +:+ "0.00"
  | S754_finite s m e =>
      let num := 100 * (Zpos m * 2 ^ Z.max e 0) in
      let den := 2 ^ Z.max (- e) 0 in
      let hundredths := round_half_even num den in
      sign_text s +:+
      str_of_Z (hundredths / 100) +:+ "." +:+ two_digits (hundredths mod 100)
  end.

(** [sep.join(lines)]. *)
Fixpoint join (sep : string) (lines : list string) : string :=
  match lines with
  | [] => ""
  | [l] => l
  | l :: rest => l +:+ sep +:+ join sep rest
  end.

Definition newline : string := String (ascii_of_nat 10) EmptyString.

(** ** Configuration ([AlertConfig]) *)

Record AlertConfig : Type := {
  latency_seconds : Float.float;
  token_threshold : Z;
  notify_mode : string;
  webhook_url : string;
  webhook_timeout_seconds : Float.float;
  smtp_host : string;
  smtp_port : Z;
  smtp_username : string;
  smtp_password : string;
  smtp_from : string;
  smtp_to : string;
  smtp_use_tls : bool
}.

(** ** Effects and the outside world

    Every call the handler makes to the logger, to [requests] and to
    [smtplib] is recorded, in order, in a trace.  One constructor stands for
    each logger call site; [HttpPost] is a call of [requests.post]. *)

Inductive effect : Type :=
| LogAlert (reason : string)
| LogSmtpNotConfigured
| LogWebhookNotConfigured
| LogWebhookFailed (exc : string)
| HttpPost (url title body : string) (timeout : Float.float)
| SmtpConnect (host : string) (port : Z)
| SmtpStartTls
| SmtpLogin (username password : string)
| SmtpSendMessage (subject sender recipient body : string)
| SmtpQuit.

(** The text of the warning each logger call writes. *)
Definition log_line (e : effect) : option string :=
  match e with
  | LogAlert reason => Some ("LangSmith alert: " +:+ reason)
  | LogSmtpNotConfigured => Some "SMTP not configured; skipping email alert."
  | LogWebhookNotConfigured => Some "Webhook URL not configured; skipping webhook alert."
  | LogWebhookFailed exc => Some ("Webhook alert failed: " +:+ exc)
  | _ => None
  end.

(** What a call of [requests.post] can come to, as far as the world
    decides: a response comes back, with its status code and the text
    [raise_for_status] gives the [HTTPError] it raises when it rejects that
    status; or the exchange fails once a socket is open (the connection is
    refused, times out or breaks); or no socket is opened, because the
    address of the host cannot be found; or the request is never handed
    over, because [requests] refuses the URL or the payload when it
    prepares the request.  The three failures are [RequestException]s. *)
Inductive post_outcome : Type :=
| Responded (status_code : Z) (error_text : string)
| TransportFailure (detail : string)
| Unreachable (detail : string)
| NotSent (detail : string).

(** What the model does not look into.  The outside world answers each
    outbound call from the history of effects up to and including that
    call; for a call on an SMTP session the answer is the failure it
    raises, if any.  [address_error] is the [email] package's parser of
    address headers: the exception it raises on a value of one line, if
    any ([ValueError] when a parsed address part holds CR or LF, as in
    ["a" ++ LF]; [IndexError] or [AttributeError] on some malformed
    addresses, as on ["a@"] in CPython 3.11). *)
Record environment : Type := {
  http_reply : list effect -> post_outcome;
  smtp_reply : list effect -> option string;
  address_error : string -> option exn
}.

(** The payload dict of [_build_payload], with its two fixed keys. *)
Record payload : Type := { title : string; body : string }.

(** The handler's mutable state and the trace of effects so far. *)
Record state : Type := {
  _start_times : gmap string Float.float;
  trace : list effect
}.

(** ** A state and exception monad for the methods *)

Definition M (A : Type) : Type := state -> result A * state.

Definition ret {A} (a : A) : M A := fun st => (Ok a, st).

Definition bind {A B} (m : M A) (k : A -> M B) : M B :=
  fun st =>
    match m st with
    | (Ok a, st') => k a st'
    | (Raise e, st') => (Raise e, st')
    end.

Definition raise {A} (e : exn) : M A := fun st => (Raise e, st).

Definition lift {A} (r : result A) : M A := fun st => (r, st).

Definition emit (e : effect) : M unit :=
  fun st => (Ok tt, {| _start_times := _start_times st; trace := trace st ++ [e] |}).

Definition get_trace : M (list effect) := fun st => (Ok (trace st), st).

Definition get_times : M (gmap string Float.float) :=
  fun st => (Ok (_start_times st), st).

Definition put_times (m : gmap string Float.float) : M unit :=
  fun st => (Ok tt, {| _start_times := m; trace := trace st |}).

(** [try: m except requests.RequestException as exc: h exc]. *)
Definition try_except_request {A} (m : M A) (h : string -> M A) : M A :=
  fun st =>
    match m st with
    | (Raise (RequestException detail), st') => h detail st'
    | other => other
    end.

(** [try: m finally: f], and the exit of a [with] block: [f] runs however
    [m] ended, and an exception raised by [f] replaces the outcome of
    [m]. *)
Definition finally {A} (m : M A) (f : M unit) : M A :=
  fun st =>
    match m st with
    | (r, st') =>
        match f st' with
        | (Ok _, st'') => (r, st'')
        | (Raise e, st'') => (Raise e, st'')
        end
    end.

Definition when (b : bool) (m : M unit) : M unit := if b then m else ret tt.

Declare Scope monad_scope.
Delimit Scope monad_scope with monad.
Notation "x <- m ;; k" := (bind m (fun x => k))
  (at level 100, m at next level, right associativity) : monad_scope.
Notation "m ;; k" := (bind m (fun _ => k))
  (at level 100, right associativity) : monad_scope.
Local Open Scope monad_scope.

Definition nonempty (s : string) : bool := negb (String.eqb s "").

(** ** Library calls the handler relies on *)

(** The number of bytes of the line boundary that [str.splitlines]
    recognises at the start of [s], 0 when there is none: CR LF, the
    control characters LF, VT, FF, CR, FS, GS, RS, and NEL, LINE SEPARATOR
    and PARAGRAPH SEPARATOR in their UTF-8 encoding. *)
Definition is_byte (n : N) (c : ascii) : bool := N.eqb (N_of_ascii c) n.

Definition line_boundary (s : string) : nat :=
  match s with
  | EmptyString => 0
  | String c rest =>
      if is_byte 13 c then
        match rest with
        | String d _ => if is_byte 10 d then 2 else 1
        | EmptyString => 1
        end
      else if is_byte 10 c || is_byte 11 c || is_byte 12 c
              || is_byte 28 c || is_byte 29 c || is_byte 30 c then 1
      else if is_byte 194 c then
        match rest with
        | String d _ => if is_byte 133 d then 2 else 0
        | EmptyString => 0
        end
      else if is_byte 226 c then
        match rest with
        | String d (String e _) =>
            if is_byte 128 d && (is_byte 168 e || is_byte 169 e) then 3 else 0
        | _ => 0
        end
      else 0
  end%nat.

Fixpoint skip (n : nat) (s : string) : string :=
  match n, s with
  | S n', String _ rest => skip n' rest
  | _, _ => s
  end.

(** [len(s.splitlines()) > 1]: something follows the first line
    boundary. *)
Fixpoint multiline (s : string) : bool :=
  match s with
  | EmptyString => false
  | String _ rest =>
      match line_boundary s with
      | O => multiline rest
      | n => nonempty (skip n s)
      end
  end.

(** [message[name] = value] on an [EmailMessage]: the default policy
    refuses a value of more than one line.  The value of [Subject] is
    otherwise stored as it is. *)
Definition set_header (value : string) : result unit :=
  if multiline value then Raise ValueError else Ok tt.

(** The same for [From] and [To], whose value, when of one line, is then
    parsed into addresses. *)
Definition set_address_header (env : environment) (value : string) : result unit :=
  if multiline value then Raise ValueError
  else
    match address_error env value with
    | Some e => Raise e
    | None => Ok tt
    end.

(** The check [urllib3] makes of the timeout when [requests] hands it a
    prepared request: a number that is not above zero is refused. *)
Definition validate_timeout (t : Float.float) : result unit :=
  if Float.leb t Float.zero then Raise ValueError else Ok tt.

(** [sock.settimeout(t)] on the socket that is opened for the request, for
    a [t] that passed the check above.  CPython keeps the timeout as a
    signed 64-bit count of nanoseconds, computed as the float [t * 1e9]:
    NaN is refused, and so is a product of [2 ^ 63] or more ([ValueError]
    at [2 ^ 63] itself, whose conversion wraps around to a negative
    count).  Neither exception is caught on the way out of
    [requests.post]. *)
Definition settimeout (t : Float.float) : result unit :=
  if Float.is_nan t then Raise ValueError
  else
    let nanoseconds := Float.mul t (Float.of_Z 1000000000) in
    if Float.ltb (Float.of_Z (2 ^ 63)) nanoseconds then Raise OverflowError
    else if Float.leb (Float.of_Z (2 ^ 63)) nanoseconds then Raise ValueError
    else Ok tt.

(** [response.raise_for_status()] rejects the client and server error
    codes, and no other. *)
Definition rejected_status (status_code : Z) : bool :=
  (400 <=? status_code) && (status_code <? 600).

(** ** The handler ([LangSmithAlertHandler]) *)

(** The [run_id] keyword argument, seen through the two operations the
    handler applies to it: [str(run_id)] and its truth value.  [None] is
    [{| rid_str := "None"; rid_truthy := false |}]. *)
Record run_id_value : Type := { rid_str : string; rid_truthy : bool }.

(** [None]: the keyword is absent from [kwargs]. *)
Definition kwargs : Type := option run_id_value.

(** The four lifecycle events the framework delivers. *)
Inductive event : Type :=
| LlmStart (kw : kwargs)
| LlmEnd (response : pyval) (kw : kwargs)
| LlmError (error : string) (kw : kwargs)
| ChainError (error : string) (kw : kwargs).

Section Handler.

Variable config : AlertConfig.
Variable env : environment.

Definition _build_payload (reason : string) (duration : option Float.float)
    (total_tokens : option pyint) : payload :=
  let title := "LangSmith alert: " +:+ reason in
  let lines := ["Reason: " +:+ reason] in
  let lines :=
    match duration with
    | Some d => lines ++ ["Latency: " +:+ format_2f d +:+ "s"]
    | None => lines
    end in
  let lines :=
    match total_tokens with
    | Some t => lines ++ ["Total tokens: " +:+ py_str_int t]
    | None => lines
    end in
  {| title := title; body := join newline lines |}.

Definition _smtp_configured : M bool :=
  if nonempty (smtp_host config) && nonempty (smtp_from config)
     && nonempty (smtp_to config)
  then ret true
  else emit LogSmtpNotConfigured ;; ret false.

(** One call on the SMTP session: recorded, then answered by the world. *)
Definition smtp_call (e : effect) : M unit :=
  emit e ;;
  history <- get_trace ;;
  match smtp_reply env history with
  | None => ret tt
  | Some detail => raise (SMTPException detail)
  end.

(** [with smtplib.SMTP(host, port) as smtp: session]: the connection is
    made by the constructor; once made, the block is left through the
    session's [__exit__], which sends QUIT and raises when the server does
    not acknowledge it, whether the block returned or raised. *)
Definition with_smtp (host : string) (port : Z) (session : M unit) : M unit :=
  smtp_call (SmtpConnect host port) ;;
  finally session (smtp_call SmtpQuit).

(** Lines 142-146 build the message, before any connection is made. *)
Definition _send_email (subject body : string) : M unit :=
  lift (set_header subject) ;;
  lift (set_address_header env (smtp_from config)) ;;
  lift (set_address_header env (smtp_to config)) ;;
  with_smtp (smtp_host config) (smtp_port config)
    (when (smtp_use_tls config) (smtp_call SmtpStartTls) ;;
     when (nonempty (smtp_username config) && nonempty (smtp_password config))
       (smtp_call (SmtpLogin (smtp_username config) (smtp_password config))) ;;
     smtp_call (SmtpSendMessage subject (smtp_from config) (smtp_to config) body)).

(** [requests.post(url, json=data, timeout=t)] then
    [response.raise_for_status()].  The request is prepared; then the
    timeout is checked; then the host is looked up and a socket is opened
    and given the timeout; then the exchange takes place. *)
Definition post_and_check (url : string) (data : payload) (timeout : Float.float)
    : M unit :=
  emit (HttpPost url (title data) (body data) timeout) ;;
  history <- get_trace ;;
  match http_reply env history with
  | NotSent detail => raise (RequestException detail)
  | Unreachable detail =>
      lift (validate_timeout timeout) ;;
      raise (RequestException detail)
  | TransportFailure detail =>
      lift (validate_timeout timeout) ;;
      lift (settimeout timeout) ;;
      raise (RequestException detail)
  | Responded status_code error_text =>
      lift (validate_timeout timeout) ;;
      lift (settimeout timeout) ;;
      if rejected_status status_code then raise (RequestException error_text)
      else ret tt
  end.

Definition _send_webhook (p : payload) : M unit :=
  if negb (nonempty (webhook_url config))
  then emit LogWebhookNotConfigured
  else
    let data := {| title := title p; body := body p |} in
    try_except_request
      (post_and_check (webhook_url config) data (webhook_timeout_seconds config))
      (fun exc => emit (LogWebhookFailed exc)).

Definition _alert (reason : string) (duration : option Float.float)
    (total_tokens : option pyint) : M unit :=
  emit (LogAlert reason) ;;
  let p := _build_payload reason duration total_tokens in
  let mode := notify_mode config in
  if String.eqb mode "webhook" then _send_webhook p
  else if String.eqb mode "smtp" then
    configured <- _smtp_configured ;;
    if negb configured then ret tt
    else _send_email (title p) (body p)
  else ret tt.

(** [now] is the reading [time.perf_counter()] gives during the call; the
    difference is the float subtraction. *)
Definition _pop_duration (run_id : string) (now : Float.float)
    : M (option Float.float) :=
  times <- get_times ;;
  match times !! run_id with
  | Some start => put_times (delete run_id times) ;; ret (Some (Float.sub now start))
  | None => ret None
  end.

Definition on_llm_start (kw : kwargs) (now : Float.float) : M unit :=
  match kw with
  | Some run_id =>
      if rid_truthy run_id then
        times <- get_times ;;
        put_times (<[rid_str run_id := now]> times)
      else ret tt
  | None => ret tt
  end.

(** [str(kwargs.get("run_id", ""))]. *)
Definition run_id_key (kw : kwargs) : string :=
  match kw with
  | Some run_id => rid_str run_id
  | None => ""
  end.

(** [duration is not None and duration >= self.config.latency_seconds]. *)
Definition exceeds_latency (duration : option Float.float) : bool :=
  match duration with
  | Some d => Float.leb (latency_seconds config) d
  | None => false
  end.

(** [total_tokens is not None and total_tokens >= self.config.token_threshold]. *)
Definition exceeds_tokens (total_tokens : option pyint) : bool :=
  match total_tokens with
  | Some t => token_threshold config <=? int_value t
  | None => false
  end.

Definition on_llm_end (response : pyval) (kw : kwargs) (now : Float.float) : M unit :=
  let run_id := run_id_key kw in
  duration <- _pop_duration run_id now ;;
  total_tokens <- lift (_extract_total_tokens response) ;;
  when (exceeds_latency duration)
    (_alert "Latency threshold exceeded" duration total_tokens) ;;
  when (exceeds_tokens total_tokens)
    (_alert "Token threshold exceeded" duration total_tokens).

Definition on_llm_error (error : string) (kw : kwargs) (now : Float.float) : M unit :=
  let run_id := run_id_key kw in
  duration <- _pop_duration run_id now ;;
  _alert ("LLM error: " +:+ error) duration None.

Definition on_chain_error (error : string) (kw : kwargs) (now : Float.float) : M unit :=
  let run_id := run_id_key kw in
  duration <- _pop_duration run_id now ;;
  _alert ("Chain error: " +:+ error) duration None.

Definition handle (ev : event) (now : Float.float) : M unit :=
  match ev with
  | LlmStart kw => on_llm_start kw now
  | LlmEnd response kw => on_llm_end response kw now
  | LlmError error kw => on_llm_error error kw now
  | ChainError error kw => on_chain_error error kw now
  end.

End Handler.

(** Delivering a sequence of events, each with the clock reading at its
    delivery.  The framework carries on after a handler call that raised,
    so the state left by each call is the one the next call starts from. *)
Fixpoint run (config : AlertConfig) (env : environment)
    (events : list (event * Float.float)) (st : state) : state :=
  match events with
  | [] => st
  | (ev, now) :: rest => run config env rest (snd (handle config env ev now st))
  end.

Definition initial_state : state := {| _start_times := ∅; trace := [] |}.

(** ** Observing a trace *)

(** The effects a call added to the trace. *)
Definition new_effects (before after : state) : list effect :=
  drop (length (trace before)) (trace after).

(** The reasons of the alerts dispatched, one per [_alert] call, in order. *)
Definition alert_reason (e : effect) : option string :=
  match e with
  | LogAlert reason => Some reason
  | _ => None
  end.

Definition alerts_of (effects : list effect) : list string :=
  omap alert_reason effects.

(** The payloads handed to a channel. *)
Definition sent_payload (e : effect) : option payload :=
  match e with
  | HttpPost _ t b _ => Some {| title := t; body := b |}
  | SmtpSendMessage subject _ _ b => Some {| title := subject; body := b |}
  | _ => None
  end.

Definition sent_payloads (effects : list effect) : list payload :=
  omap sent_payload effects.

(** The elapsed time a call at [now] obtains for [run_id] in [st]. *)
Definition elapsed (st : state) (run_id : string) (now : Float.float)
    : option Float.float :=
  match _start_times st !! run_id with
  | Some start => Some (Float.sub now start)
  | None => None
  end.

(** An event delivered without a run identifier: the keyword is absent,
    or its value is falsy. *)
Definition no_run_id (kw : kwargs) : bool :=
  match kw with
  | Some run_id => negb (rid_truthy run_id)
  | None => true
  end.

(** [records_under key ev]: [ev] is a start event that stores a start time
    under [key]. *)
Definition records_under (key : string) (ev : event) : bool :=
  match ev with
  | LlmStart (Some run_id) => rid_truthy run_id && String.eqb (rid_str run_id) key
  | _ => false
  end.

(** A clock reading is a binary64 number. *)
Definition reading (t : Float.float) : bool :=
  Float.well_formed t && Float.is_finite t.

(** Clock readings that never go backwards, starting from [t]. *)
Fixpoint monotonic (t : Float.float) (events : list (event * Float.float)) : Prop :=
  match events with
  | [] => True
  | (_, now) :: rest =>
      reading now = true /\ Float.leb t now = true /\ monotonic now rest
  end.

(** ** The extraction strategy in the words of the specification *)

(** "Look for a token-usage sub-field, then a usage sub-field (first
    present wins)". *)
Definition first_present (d : list (string * pyval)) : option pyval :=
  match assoc "token_usage" d with
  | Some v => Some v
  | None => assoc "usage" d
  end.

(** The same with "first truthy wins", as the [or] chain does it. *)
Definition first_truthy (d : list (string * pyval)) : option pyval :=
  find truthy [dict_get d "token_usage"; dict_get d "usage"].

(** The integer [total_tokens] entry of a usage record, if it has one. *)
Definition usage_total (usage : pyval) : option pyint :=
  match usage with
  | PyDict u =>
      match assoc "total_tokens" u with
      | Some v => as_int v
      | None => None
      end
  | _ => None
  end.

(** Step 1, parameterised by the way the sub-field is chosen. *)
Definition metadata_total (choose : list (string * pyval) -> option pyval)
    (response : pyval) : option pyint :=
  match getattr response "llm_output" PyNone with
  | PyDict d =>
      match choose d with
      | Some usage => usage_total usage
      | None => None
      end
  | _ => None
  end.

(** The generations as an ordered sequence of ordered sequences, when the
    field is absent, falsy or has that shape. *)
Definition nested_generations (response : pyval) : option (list (list pyval)) :=
  match iterate (py_or (getattr response "generations" PyNone) (PyList [])) with
  | Some groups => mapM iterate groups
  | None => None
  end.

(** Step 2: the first integer total in iteration order. *)
Definition first_total (groups : list (list pyval)) : option pyint :=
  head (omap generation_total (concat groups)).

Definition spec_extract_total_tokens (response : pyval) : option pyint :=
  match metadata_total first_present response with
  | Some total => Some total
  | None =>
      match nested_generations response with
      | Some groups => first_total groups
      | None => None
      end
  end.

(** Every integer total the top-level metadata offers, in either
    sub-field. *)
Definition metadata_totals (response : pyval) : list pyint :=
  match getattr response "llm_output" PyNone with
  | PyDict d => omap usage_total [dict_get d "token_usage"; dict_get d "usage"]
  | _ => []
  end.

(** The usage record of a generation: the [usage_metadata] of its
    [message]. *)
Definition generation_usage (generation : pyval) : pyval :=
  getattr (getattr generation "message" PyNone) "usage_metadata" PyNone.

(** The integer [total_tokens] entries stored in a response, in strategy
    order: the one of the usage record that step 1 selects, then those of
    the usage records of the generations, sequence by sequence. *)
Definition stored_totals (response : pyval) : list pyint :=
  option_list (metadata_total first_truthy response) ++
  match iterate (py_or (getattr response "generations" PyNone) (PyList [])) with
  | Some groups =>
      omap (fun generation => usage_total (generation_usage generation))
           (concat (omap iterate groups))
  | None => []
  end.

(** ** The run timer as a state machine

    What each event does to the timer map: a start with a truthy run
    identifier makes the run pending, a success or error event leaves no
    entry under the key it looks up. *)

Definition next_times (ev : event) (now : Float.float)
    (times : gmap string Float.float) : gmap string Float.float :=
  match ev with
  | LlmStart (Some run_id) =>
      if rid_truthy run_id then <[rid_str run_id := now]> times else times
  | LlmStart None => times
  | LlmEnd _ kw | LlmError _ kw | ChainError _ kw => delete (run_id_key kw) times
  end.

(** The state once the entry of [run_id], if any, has been taken. *)
Definition popped (run_id : string) (st : state) : state :=
  {| _start_times := delete run_id (_start_times st); trace := trace st |}.

(** The last clock reading of a sequence of events that starts at [t]. *)
Fixpoint last_reading (t : Float.float) (events : list (event * Float.float))
    : Float.float :=
  match events with
  | [] => t
  | (_, now) :: rest => last_reading now rest
  end.

(** ** Frame conditions for the channel code

    [extends P st st']: from [st] to [st'] the timer map is untouched and
    the trace grew by effects that all satisfy [P]. *)

Definition extends (P : effect -> Prop) (st st' : state) : Prop :=
  _start_times st' = _start_times st /\
  exists delta, trace st' = trace st ++ delta /\ Forall P delta.

Definition channel_only {A} (P : effect -> Prop) (m : M A) : Prop :=
  forall st, extends P st (snd (m st)).

(** What a channel may emit on behalf of the alert carrying [p]: no further
    alert line, and no payload other than [p]. *)
Definition channel_effect (p : payload) (e : effect) : Prop :=
  alert_reason e = None /\ forall q, sent_payload e = Some q -> q = p.

(** A generation record that carries no usage metadata. *)
Definition no_usage_metadata (generation : pyval) : Prop :=
  getattr (getattr generation "message" PyNone) "usage_metadata" PyNone = PyNone.

(** ** The texts of numbers, in the words of the specification *)

(** [text] is the decimal numeral of [n]: an optional minus sign and
    digits, which read back as [n] digit for digit (no sign for zero, no
    leading zero). *)
Definition decimal_numeral (n : Z) (text : string) : Prop :=
  NilZero.int_of_string text = Some (Z.to_int n).

(** [h] is the integer nearest to [num / den], the even one of the two when
    [num / den] lies half-way. *)
Definition nearest_even (num den h : Z) : Prop :=
  Z.abs (2 * (den * h - num)) <= den /\
  (Z.abs (2 * (den * h - num)) = den -> Z.even h = true).

Definition digit (d : Z) : ascii := ascii_of_nat (48 + Z.to_nat d).

(** [text] shows the float [x] to two decimal places.  For a number, whose
    value is [m * 2 ^ e] with a sign, that is the sign, the whole part in
    decimal, a point and two digits, which together are the number of
    hundredths nearest to [m * 2 ^ e]. *)
Definition two_decimals (x : spec_float) (text : string) : Prop :=
  match x with
  | S754_nan => text = "nan"
  | S754_infinity s => text = (if s then "-inf" else "inf")
  | S754_zero s => text = (if s then "-0.00" else "0.00")
  | S754_finite s m e =>
      exists hundredths whole,
        (if 0 <=? e then hundredths = 100 * (Zpos m * 2 ^ e)
         else nearest_even (100 * Zpos m) (2 ^ (- e)) hundredths) /\
        decimal_numeral (hundredths / 100) whole /\
        text =
          (if s then "-" else "") +:+ whole +:+ "." +:+
          String (digit (hundredths / 10 mod 10))
                 (String (digit (hundredths mod 10)) EmptyString)
  end.

(** [text] is what [str] gives for a token count. *)
Definition count_text (t : pyint) (text : string) : Prop :=
  match t with
  | IntV n => decimal_numeral n text
  | BoolV b => text = if b then "True" else "False"
  end.

(** ** Error events, in the words of the specification *)

(** What is claimed of one error entry point, whose reason starts with
    [prefix]: exactly one alert, with that reason; no payload reaches a
    channel but the one built from the reason, the elapsed time obtained
    for the event's key and no token count; its body is the reason line,
    followed by a latency line exactly when a start is pending under that
    key, and that line shows the binary64 difference of the two readings
    to two decimal places. *)
Definition error_alert_spec (config : AlertConfig) (env : environment)
    (handler : string -> kwargs -> Float.float -> M unit) (prefix : string)
    (error : string) (kw : kwargs) (now : Float.float) (st : state) : Prop :=
  let reason := prefix +:+ error in
  let duration := elapsed st (run_id_key kw) now in
  let st' := snd (handler error kw now st) in
  alerts_of (new_effects st st') = [reason] /\
  Forall (fun p => p = _build_payload reason duration None)
         (sent_payloads (new_effects st st')) /\
  title (_build_payload reason duration None) = "LangSmith alert: " +:+ reason /\
  match _start_times st !! run_id_key kw with
  | Some start =>
      exists text,
        two_decimals (SFsub 53 1024 now start) text /\
        body (_build_payload reason duration None) =
          ("Reason: " +:+ reason) +:+ newline +:+ ("Latency: " +:+ text +:+ "s")
  | None => body (_build_payload reason duration None) = "Reason: " +:+ reason
  end.

(** ** Timeouts *)


(** ** Concrete responses, configurations and worlds *)

Definition generation_with_total (n : Z) : pyval :=
  PyObject [("message",
             PyObject [("usage_metadata", PyDict [("total_tokens", PyInt n)])])].

Definition response_with_total (n : Z) : pyval :=
  PyObject [("llm_output",
             PyDict [("token_usage", PyDict [("total_tokens", PyInt n)])])].

(** [token_usage] is present but empty; [usage] holds the count. *)
Definition response_empty_usage : pyval :=
  PyObject [("llm_output",
             PyDict [("token_usage", PyDict []);
                     ("usage", PyDict [("total_tokens", PyInt 7)])])].

(** A non-integer total in the metadata, totals 3 and 4 in the second and
    third generation. *)
Definition response_two_groups : pyval :=
  PyObject [("llm_output",
             PyDict [("token_usage", PyDict [("total_tokens", PyStr "12")])]);
            ("generations",
             PyList [PyList [PyObject []; generation_with_total 3];
                     PyList [generation_with_total 4]])].

Definition response_bad_generations : pyval :=
  PyObject [("generations", PyInt 5)].

Definition response_no_metadata : pyval :=
  PyObject [("generations",
             PyList [PyList [PyObject [("text", PyStr "hello")];
                             PyObject [("message",
                                        PyObject [("content", PyStr "hi")])]]])].

(** A total of 5 in the selected usage record, next to a negative count of
    another kind and a negative total in a generation that is not
    reached. *)
Definition response_mixed_signs : pyval :=
  PyObject [("llm_output",
             PyDict [("token_usage",
                      PyDict [("total_tokens", PyInt 5);
                              ("cached_tokens", PyInt (-1))])]);
            ("generations", PyList [PyList [generation_with_total (-2)]])].

(** Thresholds of 1 second and 50 tokens, SMTP fully configured. *)
Definition config_for (mode url : string) : AlertConfig :=
  {| latency_seconds := Float.of_Z 1; token_threshold := 50; notify_mode := mode;
     webhook_url := url; webhook_timeout_seconds := Float.of_Z 5;
     smtp_host := "mail.example"; smtp_port := 587;
     smtp_username := ""; smtp_password := "";
     smtp_from := "alerts@example"; smtp_to := "ops@example";
     smtp_use_tls := true |}.

(** Webhook mode with a timeout of zero seconds. *)
Definition config_zero_timeout : AlertConfig :=
  {| latency_seconds := Float.of_Z 1; token_threshold := 50; notify_mode := "webhook";
     webhook_url := "http://x"; webhook_timeout_seconds := Float.of_Z 0;
     smtp_host := ""; smtp_port := 587;
     smtp_username := ""; smtp_password := "";
     smtp_from := ""; smtp_to := "";
     smtp_use_tls := true |}.

(** The address parser on the addresses of the scenarios below, all of
    them well formed: it raises on none. *)
Definition no_address_error : string -> option exn := fun _ => None.

(** A world where every outbound call fails. *)
Definition env_failing : environment :=
  {| http_reply := fun _ => Responded 500 "500 Server Error";
     smtp_reply := fun _ => Some "connection refused";
     address_error := no_address_error |}.

(** A world where every outbound call succeeds. *)
Definition env_working : environment :=
  {| http_reply := fun _ => Responded 200 ""; smtp_reply := fun _ => None;
     address_error := no_address_error |}.


Definition run_r1 : kwargs := Some {| rid_str := "r1"; rid_truthy := true |}.

(** [run_id="None"], a string, and [run_id=None]. *)
Definition run_named_None : kwargs := Some {| rid_str := "None"; rid_truthy := true |}.
Definition run_id_is_None : kwargs := Some {| rid_str := "None"; rid_truthy := false |}.

(** The state after a start event for run [r1] at clock reading 0. *)
Definition st_r1 : state := snd (on_llm_start run_r1 (Float.of_Z 0) initial_state).

(** The state after a start event at reading 0 whose run identifier is the
    string ["None"]. *)
Definition st_named_None : state :=
  snd (on_llm_start run_named_None (Float.of_Z 0) initial_state).

(** ** Channels, SMTP sessions and events, for the properties below *)

Definition is_http_effect (e : effect) : bool :=
  match e with
  | HttpPost _ _ _ _ => true
  | _ => false
  end.

Definition is_smtp_effect (e : effect) : bool :=
  match e with
  | SmtpConnect _ _ | SmtpStartTls | SmtpLogin _ _
  | SmtpSendMessage _ _ _ _ | SmtpQuit => true
  | _ => false
  end.

(** The calls [_send_email] makes on an open session, in program order:
    the TLS upgrade if configured, the login if both credentials are set,
    the message. *)
Definition smtp_steps (config : AlertConfig) (subject body : string) : list effect :=
  (if smtp_use_tls config then [SmtpStartTls] else []) ++
  (if nonempty (smtp_username config) && nonempty (smtp_password config)
   then [SmtpLogin (smtp_username config) (smtp_password config)] else []) ++
  [SmtpSendMessage subject (smtp_from config) (smtp_to config) body].

(** A sequence of calls on the session, stopping at the first that raises. *)
Fixpoint smtp_calls (env : environment) (steps : list effect) : M unit :=
  match steps with
  | [] => ret tt
  | e :: rest => smtp_call env e ;; smtp_calls env rest
  end.

(** The header values of the message are accepted: the subject is a
    single line, and each of the two addresses is a single line on which
    the address parser does not raise. *)
Definition address_accepted (env : environment) (value : string) : bool :=
  negb (multiline value)
  && match address_error env value with None => true | Some _ => false end.

Definition headers_accepted (env : environment) (config : AlertConfig)
    (subject : string) : bool :=
  negb (multiline subject) && address_accepted env (smtp_from config)
  && address_accepted env (smtp_to config).

(** The exception that building the message raises, if any: that of the
    first header refused, in the order [Subject], [From], [To]. *)
Definition address_header_error (env : environment) (value : string) : option exn :=
  if multiline value then Some ValueError else address_error env value.

Definition header_error (env : environment) (config : AlertConfig)
    (subject : string) : option exn :=
  if multiline subject then Some ValueError
  else
    match address_header_error env (smtp_from config) with
    | Some e => Some e
    | None => address_header_error env (smtp_to config)
    end.

(** [touches key ev]: [ev] stores or takes the entry of [key]. *)
Definition touches (key : string) (ev : event) : bool :=
  match ev with
  | LlmStart (Some run_id) => rid_truthy run_id && String.eqb (rid_str run_id) key
  | LlmStart None => false
  | LlmEnd _ kw | LlmError _ kw | ChainError _ kw => String.eqb (run_id_key kw) key
  end.

(** The number of start events that carry a truthy run identifier. *)
Fixpoint recording_starts (events : list (event * Float.float)) : nat :=
  match events with
  | [] => 0%nat
  | (LlmStart (Some run_id), _) :: rest =>
      ((if rid_truthy run_id then 1 else 0) + recording_starts rest)%nat
  | _ :: rest => recording_starts rest
  end.

(** SMTP mode with no sender address. *)
Definition config_without_sender : AlertConfig :=
  {| latency_seconds := Float.of_Z 1; token_threshold := 50; notify_mode := "smtp";
     webhook_url := "http://x"; webhook_timeout_seconds := Float.of_Z 5;
     smtp_host := "mail.example"; smtp_port := 587;
     smtp_username := "user"; smtp_password := "secret";
     smtp_from := ""; smtp_to := "ops@example";
     smtp_use_tls := true |}.

(** SMTP mode, fully configured, with credentials and TLS. *)
Definition config_with_login : AlertConfig :=
  {| latency_seconds := Float.of_Z 1; token_threshold := 50; notify_mode := "smtp";
     webhook_url := ""; webhook_timeout_seconds := Float.of_Z 5;
     smtp_host := "mail.example"; smtp_port := 587;
     smtp_username := "user"; smtp_password := "secret";
     smtp_from := "alerts@example"; smtp_to := "ops@example";
     smtp_use_tls := true |}.

(** A world where the mail server accepts the connection and refuses the
    TLS upgrade. *)
Definition env_no_tls : environment :=
  {| http_reply := fun _ => Responded 200 "";
     smtp_reply := fun history =>
       match last history with
       | Some SmtpStartTls => Some "STARTTLS not supported"
       | _ => None
       end;
     address_error := no_address_error |}.

(** A world where the mail server accepts every call but answers QUIT with
    something other than 221. *)
Definition env_quit_refused : environment :=
  {| http_reply := fun _ => Responded 200 "";
     smtp_reply := fun history =>
       match last history with
       | Some SmtpQuit => Some "(500, b'unrecognised command')"
       | _ => None
       end;
     address_error := no_address_error |}.

(** SMTP mode with a sender address that ends at the [@]. *)
Definition config_bare_sender : AlertConfig :=
  {| latency_seconds := Float.of_Z 1; token_threshold := 50; notify_mode := "smtp";
     webhook_url := ""; webhook_timeout_seconds := Float.of_Z 5;
     smtp_host := "mail.example"; smtp_port := 587;
     smtp_username := "user"; smtp_password := "secret";
     smtp_from := "alerts@"; smtp_to := "ops@example";
     smtp_use_tls := true |}.

(** A world where every outbound call succeeds, with the address parser of
    CPython 3.11, which fails with [IndexError] on an address that ends at
    the [@]. *)
Definition env_strict_addresses : environment :=
  {| http_reply := fun _ => Responded 200 ""; smtp_reply := fun _ => None;
     address_error := fun value =>
       if String.eqb value "alerts@" then Some IndexError else None |}.

(** An error description of two lines. *)
Definition two_line_error : string := "boom" +:+ newline +:+ "at step 3".

(** * Properties *)

(** ** Strings and numbers *)

Lemma append_nil_r (a : string) : a +:+ "" = a.
Proof.
  induction a as [|ch a IH]; [reflexivity|].
  change (String ch (a +:+ "") = String ch a).
  f_equal. exact IH.
Qed.

(** [round_half_even] picks the integer nearest to the quotient, and the
    even one on a tie. *)
Lemma round_half_even_nearest (num den : Z) :
  0 < den -> nearest_even num den (round_half_even num den).
Proof.
  intros Hden. unfold nearest_even, round_half_even.
  pose proof (Z.div_mod num den ltac:(lia)) as Hdm.
  pose proof (Z.mod_pos_bound num den Hden) as Hmod.
  destruct (2 * (num mod den) ?= den) eqn:Hcmp.
  - apply Z.compare_eq in Hcmp.
    destruct (Z.even (num / den)) eqn:Heven.
    + split; [nia | intros _; exact Heven].
    + split; [nia|]. intros _. rewrite Z.even_add, Heven. reflexivity.
  - rewrite Z.compare_lt_iff in Hcmp. split; [nia | intros Htie; nia].
  - rewrite Z.compare_gt_iff in Hcmp. split; [nia | intros Htie; nia].
Qed.

(** At most one integer is nearest in that sense. *)
Lemma nearest_even_unique (num den h h' : Z) :
  0 < den -> nearest_even num den h -> nearest_even num den h' -> h = h'.
Proof.
  intros Hden [Hh Hhe] [Hh' Hhe'].
  destruct (Z.eq_dec h h') as [|Hne]; [assumption|exfalso].
  assert (Hdist : h' = h + 1 \/ h = h' + 1) by nia.
  assert (Htie : Z.abs (2 * (den * h - num)) = den /\
                 Z.abs (2 * (den * h' - num)) = den) by nia.
  destruct Htie as [Ht Ht']. specialize (Hhe Ht). specialize (Hhe' Ht').
  destruct Hdist as [-> | ->].
  - rewrite Z.even_add, Hhe in Hhe'. discriminate.
  - rewrite Z.even_add, Hhe' in Hhe. discriminate.
Qed.

Lemma str_of_Z_numeral (n : Z) : decimal_numeral n (str_of_Z n).
Proof.
  unfold decimal_numeral, str_of_Z. apply NilZero.isi.
  - destruct n; simpl; try discriminate.
    intros [= H]. exact (Unsigned.to_uint_nonnil _ H).
  - destruct n; simpl; try discriminate.
    intros [= H]. exact (Unsigned.to_uint_nonnil _ H).
Qed.

(** A decimal numeral is determined by the number. *)
Lemma decimal_numeral_unique (n : Z) (text text' : string) :
  decimal_numeral n text -> decimal_numeral n text' -> text = text'.
Proof.
  unfold decimal_numeral. intros H H'.
  apply NilZero.sis in H, H'. congruence.
Qed.

Lemma two_digits_digits (k : Z) :
  0 <= k < 100 ->
  two_digits k = String (digit (k / 10)) (String (digit (k mod 10)) EmptyString).
Proof.
  intros Hk.
  assert (Hall : forallb
            (fun i : nat =>
               String.eqb (two_digits (Z.of_nat i))
                 (String (digit (Z.of_nat i / 10))
                         (String (digit (Z.of_nat i mod 10)) EmptyString)))
            (seq 0 100) = true) by (vm_compute; reflexivity).
  rewrite forallb_forall in Hall.
  specialize (Hall (Z.to_nat k)). rewrite Z2Nat.id in Hall by lia.
  apply String.eqb_eq, Hall. apply in_seq. lia.
Qed.

Lemma round_half_even_unit (num : Z) : round_half_even num 1 = num.
Proof.
  unfold round_half_even. rewrite Z.div_1_r, Z.mod_1_r. reflexivity.
Qed.

Lemma hundredths_digits (h : Z) :
  two_digits (h mod 100) =
  String (digit (h / 10 mod 10)) (String (digit (h mod 10)) EmptyString).
Proof.
  rewrite (two_digits_digits (h mod 100)) by (apply Z.mod_pos_bound; lia).
  pose proof (Z.div_mod h 100 ltac:(lia)).
  pose proof (Z.mod_pos_bound h 100 ltac:(lia)).
  pose proof (Z.div_mod (h mod 100) 10 ltac:(lia)).
  pose proof (Z.mod_pos_bound (h mod 100) 10 ltac:(lia)).
  pose proof (Z.div_mod h 10 ltac:(lia)).
  pose proof (Z.mod_pos_bound h 10 ltac:(lia)).
  pose proof (Z.div_mod (h / 10) 10 ltac:(lia)).
  pose proof (Z.mod_pos_bound (h / 10) 10 ltac:(lia)).
  replace (h mod 100 / 10) with (h / 10 mod 10) by lia.
  replace ((h mod 100) mod 10) with (h mod 10) by lia.
  reflexivity.
Qed.

(** The [:.2f] rendering shows a float to two decimal places. *)
Lemma format_2f_two_decimals (x : Float.float) : two_decimals x (format_2f x).
Proof.
  destruct x as [s|s| |s m e].
  - destruct s; reflexivity.
  - destruct s; reflexivity.
  - reflexivity.
  - unfold format_2f, two_decimals. cbv zeta.
    set (h := round_half_even (100 * (Zpos m * 2 ^ Z.max e 0)) (2 ^ Z.max (- e) 0)).
    exists h, (str_of_Z (h / 100)). split; [|split].
    + subst h. destruct (Z.leb_spec 0 e) as [He | He].
      * rewrite Z.max_l, Z.max_r by lia. apply round_half_even_unit.
      * rewrite Z.max_r, Z.max_l by lia. rewrite Z.pow_0_r, Z.mul_1_r.
        apply round_half_even_nearest. apply Z.pow_pos_nonneg; lia.
    + apply str_of_Z_numeral.
    + rewrite hundredths_digits. destruct s; reflexivity.
Qed.

Lemma py_str_int_count_text (t : pyint) : count_text t (py_str_int t).
Proof. destruct t as [n|[]]; simpl; [apply str_of_Z_numeral | reflexivity..]. Qed.

Lemma two_decimals_unique (x : Float.float) (text text' : string) :
  two_decimals x text -> two_decimals x text' -> text = text'.
Proof.
  destruct x as [s|s| |s m e]; cbn [two_decimals]; try congruence.
  intros (h & whole & Hh & Hwhole & ->) (h' & whole' & Hh' & Hwhole' & ->).
  assert (h = h') as <-.
  { destruct (Z.leb_spec 0 e) as [He | He]; [congruence|].
    eapply nearest_even_unique; [|eassumption..]. apply Z.pow_pos_nonneg; lia. }
  assert (whole = whole') as <- by (eapply decimal_numeral_unique; eassumption).
  reflexivity.
Qed.

Lemma count_text_unique (t : pyint) (text text' : string) :
  count_text t text -> count_text t text' -> text = text'.
Proof.
  destruct t as [n|b]; simpl; [apply decimal_numeral_unique | congruence].
Qed.

(** The two-decimal rendering on some durations: 5.1 - 0.1 and
    0.475 - 0.1 as the float subtraction gives them, a value just below
    the tie 2.675, exact ties, and the values that are not numbers. *)
Example format_2f_samples :
  format_2f (Float.of_ratio 5 2) = "2.50" /\
  format_2f (Float.sub (Float.of_ratio 51 10) (Float.of_ratio 1 10)) = "5.00" /\
  format_2f (Float.sub (Float.of_ratio 475 1000) (Float.of_ratio 1 10)) = "0.38" /\
  format_2f (Float.of_ratio 2675 1000) = "2.67" /\
  format_2f (Float.of_ratio 1 8) = "0.12" /\
  format_2f (Float.of_ratio 3 8) = "0.38" /\
  format_2f (Float.of_ratio 1234567 1000) = "1234.57" /\
  format_2f (Float.of_ratio 999 1000) = "1.00" /\
  format_2f (Float.of_ratio (-1) 1000) = "-0.00" /\
  format_2f (Float.of_Z 0) = "0.00" /\
  format_2f S754_nan = "nan" /\
  format_2f (S754_infinity true) = "-inf".
Proof. vm_compute. repeat split; reflexivity. Qed.

(** The float subtraction rounds: 5.1 - 0.1 is 5. *)
Example float_sub_rounds :
  Float.sub (Float.of_ratio 51 10) (Float.of_ratio 1 10) = Float.of_Z 5.
Proof. vm_compute. reflexivity. Qed.
(** ** Floats *)

Lemma digits2_pos_bounds (m : positive) :
  2 ^ (Zpos (digits2_pos m) - 1) <= Zpos m < 2 ^ Zpos (digits2_pos m).
Proof.
  induction m as [m IH | m IH |]; simpl digits2_pos.
  - rewrite Pos2Z.inj_succ.
    replace (Z.succ (Zpos (digits2_pos m)) - 1) with (Z.succ (Zpos (digits2_pos m) - 1)) by lia.
    rewrite !Z.pow_succ_r by lia. lia.
  - rewrite Pos2Z.inj_succ.
    replace (Z.succ (Zpos (digits2_pos m)) - 1) with (Z.succ (Zpos (digits2_pos m) - 1)) by lia.
    rewrite !Z.pow_succ_r by lia. lia.
  - simpl. lia.
Qed.

Lemma shl_align_value (m : positive) (e e' : Z) :
  e' <= e ->
  Zpos (fst (shl_align m e e')) = Zpos m * 2 ^ (e - e').
Proof.
  intros Hle. unfold shl_align.
  destruct (e' - e) as [|d|d] eqn:Hd; try lia.
  - replace (e - e') with 0 by lia. simpl. lia.
  - simpl fst. change (Pos.iter xO m d) with (shift_pos d m).
    rewrite shift_pos_correct. replace (e - e') with (Zpos d) by lia.
    rewrite Z.pow_pos_fold. lia.
Qed.

Lemma iter_pos_invariant {A} (P : A -> Prop) (f : A -> A) :
  (forall x, P x -> P (f x)) -> forall n x, P x -> P (SpecFloat.iter_pos f n x).
Proof.
  intros Hf. induction n as [n IH | n IH |]; intros x Hx; simpl; auto.
Qed.

Lemma shr_1_nonneg (mrs : shr_record) : 0 <= shr_m mrs -> 0 <= shr_m (shr_1 mrs).
Proof.
  destruct mrs as [m r s]. simpl. destruct m as [|[p|p|]|[p|p|]]; simpl; lia.
Qed.

Lemma shr_fexp_nonneg (m e : Z) (l : location) :
  0 <= m -> 0 <= shr_m (fst (shr_fexp Float.prec Float.emax m e l)).
Proof.
  intros Hm. unfold shr_fexp, shr.
  assert (Hstart : 0 <= shr_m (shr_record_of_loc m l)).
  { destruct l as [|[]]; exact Hm. }
  destruct (fexp _ _ _ - e); simpl fst; try exact Hstart.
  apply (iter_pos_invariant (fun mrs => 0 <= shr_m mrs)); [apply shr_1_nonneg | exact Hstart].
Qed.

Lemma round_nearest_even_nonneg (m : Z) (l : location) :
  0 <= m -> 0 <= round_nearest_even m l.
Proof.
  intros Hm. destruct l as [|[]]; simpl; try lia. destruct (Z.even m); lia.
Qed.

Lemma binary_round_aux_nonneg (m e : Z) (l : location) :
  0 <= m ->
  Float.leb Float.zero (binary_round_aux Float.prec Float.emax false m e l) = true.
Proof.
  intros Hm. unfold binary_round_aux.
  pose proof (shr_fexp_nonneg m e l Hm) as H1.
  destruct (shr_fexp Float.prec Float.emax m e l) as [mrs' e']. simpl in H1.
  pose proof (shr_fexp_nonneg _ e' loc_Exact
                (round_nearest_even_nonneg _ (loc_of_shr_record mrs') H1)) as H2.
  destruct (shr_fexp Float.prec Float.emax _ e' loc_Exact) as [mrs'' e'']. simpl in H2.
  destruct (shr_m mrs''); try lia; [reflexivity|].
  destruct (e'' <=? _); reflexivity.
Qed.

Lemma binary_normalize_nonneg (m e : Z) :
  0 <= m ->
  Float.leb Float.zero (binary_normalize Float.prec Float.emax m e false) = true.
Proof.
  intros Hm. destruct m as [|p|p]; try lia; [reflexivity|].
  simpl. unfold binary_round.
  destruct (shl_align p e _) as [mz ez]. apply binary_round_aux_nonneg. lia.
Qed.

(** Mantissas of well-formed floats, compared across exponents. *)
Lemma bounded_mantissa (m : positive) (e : Z) :
  bounded Float.prec Float.emax m e = true ->
  Zpos m < 2 ^ Float.prec /\
  (SpecFloat.emin Float.prec Float.emax < e -> 2 ^ (Float.prec - 1) <= Zpos m).
Proof.
  unfold bounded, canonical_mantissa, fexp. intros H.
  apply andb_prop in H as [H _]. apply Z.eqb_eq in H.
  pose proof (digits2_pos_bounds m) as [Hlow Hhigh].
  split.
  - eapply Z.lt_le_trans; [exact Hhigh|].
    apply Z.pow_le_mono_r; [lia|]. lia.
  - intros He.
    assert (Hd : Zpos (digits2_pos m) = Float.prec) by lia.
    rewrite <- Hd. exact Hlow.
Qed.

Lemma emin_le (m : positive) (e : Z) :
  bounded Float.prec Float.emax m e = true -> SpecFloat.emin Float.prec Float.emax <= e.
Proof.
  unfold bounded, canonical_mantissa, fexp. intros H.
  apply andb_prop in H as [H _]. apply Z.eqb_eq in H. lia.
Qed.

(** Of two well-formed magnitudes the one with the larger exponent is
    the larger. *)
Lemma aligned_lt (m1 m2 : positive) (e1 e2 : Z) :
  bounded Float.prec Float.emax m1 e1 = true ->
  bounded Float.prec Float.emax m2 e2 = true ->
  e1 < e2 ->
  Zpos (fst (shl_align m1 e1 (Z.min e2 e1))) < Zpos (fst (shl_align m2 e2 (Z.min e2 e1))).
Proof.
  intros H1 H2 Hlt.
  rewrite !shl_align_value by lia.
  replace (Z.min e2 e1) with e1 by lia.
  replace (e1 - e1) with 0 by lia. rewrite Z.pow_0_r, Z.mul_1_r.
  destruct (bounded_mantissa m1 e1 H1) as [Hup _].
  destruct (bounded_mantissa m2 e2 H2) as [_ Hlow].
  pose proof (emin_le m1 e1 H1) as Hmin.
  specialize (Hlow ltac:(lia)).
  assert (Hpow : 2 ^ 1 <= 2 ^ (e2 - e1)) by (apply Z.pow_le_mono_r; lia).
  change (2 ^ 1) with 2 in Hpow.
  assert (Hprec : 2 ^ Float.prec = 2 * 2 ^ (Float.prec - 1)) by reflexivity.
  nia.
Qed.

Lemma pos_compare_cont_Eq (a b : positive) : Pos.compare_cont Eq a b = (Zpos a ?= Zpos b).
Proof. reflexivity. Qed.

(** Subtracting a reading from a later one never gives a negative
    number. *)
Lemma sub_nonneg (x y : Float.float) :
  Float.well_formed x = true -> Float.well_formed y = true ->
  Float.is_finite x = true -> Float.is_finite y = true ->
  Float.leb y x = true ->
  Float.leb Float.zero (Float.sub x y) = true.
Proof.
  intros Hx Hy Hfx Hfy Hle.
  destruct x as [sx|sx| |sx mx ex], y as [sy|sy| |sy my ey]; try discriminate.
  - destruct sx, sy; reflexivity.
  - destruct sy; [reflexivity | discriminate].
  - destruct sx; [discriminate | reflexivity].
  - unfold Float.sub, SFsub. apply binary_normalize_nonneg.
    simpl in Hx, Hy. unfold Float.leb, SFleb, SFcompare in Hle.
    destruct sx, sy; simpl cond_Zopp; try discriminate; try lia.
    + (* both negative *)
      destruct (Z.compare_spec ey ex) as [Heq | Hlt | Hgt]; try discriminate.
      * subst ey. rewrite !shl_align_value by lia.
        rewrite pos_compare_cont_Eq in Hle.
        destruct (Z.compare_spec (Zpos my) (Zpos mx)); try discriminate; nia.
      * pose proof (aligned_lt mx my ex ey Hx Hy Hgt) as Hal.
        rewrite Z.min_comm in Hal. lia.
    + (* both positive *)
      destruct (Z.compare_spec ey ex) as [Heq | Hlt | Hgt]; try discriminate.
      * subst ey. rewrite !shl_align_value by lia.
        rewrite pos_compare_cont_Eq in Hle.
        destruct (Z.compare_spec (Zpos my) (Zpos mx)); try discriminate; nia.
      * pose proof (aligned_lt my mx ey ex Hy Hx Hlt) as Hal. lia.
Qed.

Lemma leb_trans (x y z : Float.float) :
  Float.leb x y = true -> Float.leb y z = true -> Float.leb x z = true.
Proof.
  unfold Float.leb, SFleb.
  destruct x as [sx|sx| |sx mx ex], y as [sy|sy| |sy my ey], z as [sz|sz| |sz mz ez];
    simpl; try discriminate; try reflexivity;
    try (destruct sx; try discriminate; try reflexivity; fail);
    try (destruct sz; try discriminate; try reflexivity; fail);
    try (destruct sx, sy; try discriminate; try reflexivity; fail);
    try (destruct sy, sz; try discriminate; try reflexivity; fail);
    try (destruct sx, sz; try discriminate; try reflexivity; fail);
    try (destruct sx, sy, sz; try discriminate; try reflexivity; fail).
  rewrite !pos_compare_cont_Eq.
  destruct sx, sy, sz; try discriminate; try reflexivity;
    destruct (Z.compare_spec ex ey), (Z.compare_spec ey ez), (Z.compare_spec ex ez);
    try discriminate; try reflexivity; try lia; subst;
    destruct (Z.compare_spec (Zpos mx) (Zpos my)), (Z.compare_spec (Zpos my) (Zpos mz)),
             (Z.compare_spec (Zpos mx) (Zpos mz));
    simpl; try discriminate; try reflexivity; try lia.
Qed.

Lemma leb_refl (x : Float.float) : x <> S754_nan -> Float.leb x x = true.
Proof.
  unfold Float.leb, SFleb. destruct x as [s|s| |s m e]; simpl; try congruence.
  - destruct s; reflexivity.
  - intros _. rewrite Z.compare_refl, pos_compare_cont_Eq, Z.compare_refl.
    destruct s; reflexivity.
Qed.


(** ** Token extraction *)

Lemma scan_group_first (group : list pyval) :
  scan_group group = head (omap generation_total group).
Proof.
  induction group as [|g group IH]; simpl; [reflexivity|].
  destruct (generation_total g); simpl; [reflexivity | exact IH].
Qed.

Lemma first_total_cons (group : list pyval) (groups : list (list pyval)) :
  first_total (group :: groups) =
  match scan_group group with
  | Some total => Some total
  | None => first_total groups
  end.
Proof.
  unfold first_total. simpl. rewrite omap_app, scan_group_first.
  destruct (omap generation_total group); reflexivity.
Qed.

Lemma scan_generations_first (generations : list pyval) :
  forall groups,
    mapM iterate generations = Some groups ->
    scan_generations generations = Ok (first_total groups).
Proof.
  induction generations as [|g generations IH]; intros groups Hshape.
  - apply mapM_Some in Hshape. inversion Hshape; subst. reflexivity.
  - apply mapM_Some in Hshape. inversion Hshape as [|? group ? rest Hg Hrest]; subst.
    simpl. rewrite Hg, first_total_cons.
    destruct (scan_group group); [reflexivity|].
    apply IH. apply mapM_Some. exact Hrest.
Qed.

(** The [or] chain of lines 85-88 picks the first truthy sub-field. *)
Lemma llm_output_total_first_truthy (response : pyval) :
  llm_output_total response = metadata_total first_truthy response.
Proof.
  assert (Husage : forall usage,
             as_int match usage with
                    | PyDict u => dict_get u "total_tokens"
                    | _ => PyNone
                    end = usage_total usage).
  { intros usage. destruct usage as [| | | | | | u |]; try reflexivity.
    unfold usage_total, dict_get. destruct (assoc "total_tokens" u); reflexivity. }
  unfold llm_output_total, metadata_total, first_truthy. cbv zeta.
  destruct (getattr response "llm_output" PyNone) as [| b | n | x | s | items | d | attrs];
    unfold py_or at 1; simpl truthy; try reflexivity.
  - destruct b; reflexivity.
  - destruct (negb (n =? 0)); reflexivity.
  - destruct x; reflexivity.
  - destruct (negb (String.eqb s "")); reflexivity.
  - destruct items; reflexivity.
  - destruct d as [|kv d]; [reflexivity|].
    cbn [length Nat.eqb negb]. rewrite Husage. unfold py_or. simpl find.
    destruct (truthy (dict_get (kv :: d) "token_usage")); [reflexivity|].
    destruct (truthy (dict_get (kv :: d) "usage")); reflexivity.
Qed.

Lemma extract_metadata_hit (response : pyval) (total : pyint) :
  metadata_total first_truthy response = Some total ->
  _extract_total_tokens response = Ok (Some total).
Proof.
  intros H. unfold _extract_total_tokens.
  rewrite llm_output_total_first_truthy, H. reflexivity.
Qed.

Lemma extract_generations_scan (response : pyval) (groups : list (list pyval)) :
  metadata_total first_truthy response = None ->
  nested_generations response = Some groups ->
  _extract_total_tokens response = Ok (first_total groups).
Proof.
  intros Hmeta Hshape. unfold _extract_total_tokens.
  rewrite llm_output_total_first_truthy, Hmeta.
  unfold nested_generations in Hshape. cbv zeta.
  destruct (iterate (py_or (getattr response "generations" PyNone) (PyList [])));
    [|discriminate].
  apply scan_generations_first. exact Hshape.
Qed.

(** C5, as worded, fails: with an empty (present but falsy) [token_usage]
    and a [usage] holding 7 total tokens, "first present wins" finds
    nothing in step 1 and nothing in the absent generations, while the
    code returns 7. *)
Lemma first_present_counterexample :
  spec_extract_total_tokens response_empty_usage = None /\
  _extract_total_tokens response_empty_usage = Ok (Some (IntV 7)) /\
  _extract_total_tokens response_empty_usage <>
    Ok (spec_extract_total_tokens response_empty_usage).
Proof. split; [reflexivity|]. split; [reflexivity | discriminate]. Qed.

(** C5, amended.  Step 1 reads the [llm_output] dict, takes the first
    truthy one of its [token_usage] and [usage] entries and returns that
    record's [total_tokens] when it is an integer.  Only when step 1
    yields nothing are the generations scanned, and for generations that
    form a sequence of sequences the result is the first integer
    [total_tokens] of a generation's message usage metadata in iteration
    order. *)
Theorem extract_strategy_order (response : pyval) :
  (forall total,
      metadata_total first_truthy response = Some total ->
      _extract_total_tokens response = Ok (Some total)) /\
  (forall groups,
      metadata_total first_truthy response = None ->
      nested_generations response = Some groups ->
      _extract_total_tokens response = Ok (first_total groups)).
Proof.
  split.
  - intros total. apply extract_metadata_hit.
  - intros groups. apply extract_generations_scan.
Qed.

Lemma extract_strategy_order_witness :
  _extract_total_tokens response_empty_usage = Ok (Some (IntV 7)) /\
  _extract_total_tokens response_two_groups = Ok (Some (IntV 3)).
Proof.
  split.
  - apply (proj1 (extract_strategy_order response_empty_usage)). reflexivity.
  - apply (proj2 (extract_strategy_order response_two_groups)
             [[PyObject []; generation_with_total 3]; [generation_with_total 4]]);
      reflexivity.
Defined.

(** *** Responses that offer no count *)

Lemma metadata_totals_nil (response : pyval) :
  metadata_totals response = [] ->
  metadata_total first_truthy response = None.
Proof.
  unfold metadata_totals, metadata_total, first_truthy.
  destruct (getattr response "llm_output" PyNone) as [| | | | | | d |]; try reflexivity.
  set (tu := dict_get d "token_usage"). set (us := dict_get d "usage").
  simpl. intros Hnone.
  destruct (usage_total tu) eqn:Htu; [discriminate|].
  destruct (usage_total us) eqn:Hus; [discriminate|].
  destruct (truthy tu); [exact Htu|].
  destruct (truthy us); [exact Hus | reflexivity].
Qed.

Lemma extract_unrecoverable (response : pyval) (groups : list (list pyval)) :
  nested_generations response = Some groups ->
  metadata_totals response = [] ->
  omap generation_total (concat groups) = [] ->
  _extract_total_tokens response = Ok None.
Proof.
  intros Hshape Hmeta Hgens.
  rewrite (extract_generations_scan response groups);
    [| apply metadata_totals_nil; exact Hmeta | exact Hshape].
  unfold first_total. rewrite Hgens. reflexivity.
Qed.

Lemma omap_no_usage_metadata (gens : list pyval) :
  Forall no_usage_metadata gens -> omap generation_total gens = [].
Proof.
  induction 1 as [|g gens Hg _ IH]; [reflexivity|].
  simpl. unfold generation_total at 1. rewrite Hg. exact IH.
Qed.

(** *** The sign of an extracted count *)

(** The inner loop reads the total of a generation's usage record. *)
Lemma generation_total_usage (generation : pyval) :
  generation_total generation = usage_total (generation_usage generation).
Proof.
  unfold generation_total, generation_usage, usage_total, dict_get. cbv zeta.
  destruct (getattr (getattr generation "message" PyNone) "usage_metadata" PyNone)
    as [| | | | | | u |]; try reflexivity.
  destruct (assoc "total_tokens" u); reflexivity.
Qed.

Lemma omap_generation_total (generations : list pyval) :
  omap generation_total generations =
  omap (fun generation => usage_total (generation_usage generation)) generations.
Proof.
  induction generations as [|g generations IH]; [reflexivity|].
  csimpl. rewrite generation_total_usage, IH. reflexivity.
Qed.

Lemma scan_generations_stored (generations : list pyval) (total : pyint) :
  scan_generations generations = Ok (Some total) ->
  head (omap (fun generation => usage_total (generation_usage generation))
             (concat (omap iterate generations))) = Some total.
Proof.
  rewrite <- omap_generation_total.
  induction generations as [|g generations IH]; simpl; [discriminate|].
  destruct (iterate g) as [group|]; [|discriminate].
  simpl. rewrite omap_app, scan_group_first.
  destruct (omap generation_total group) as [|hit hits]; simpl.
  - exact IH.
  - intros [= <-]. reflexivity.
Qed.

(** A value returned by the extractor is the first stored total, as it is
    stored. *)
Lemma extract_stored (response : pyval) (total : pyint) :
  _extract_total_tokens response = Ok (Some total) ->
  head (stored_totals response) = Some total.
Proof.
  unfold _extract_total_tokens, stored_totals.
  rewrite llm_output_total_first_truthy.
  destruct (metadata_total first_truthy response) as [hit|]; simpl.
  - intros [= <-]. reflexivity.
  - destruct (iterate _) as [groups|]; [|discriminate].
    apply scan_generations_stored.
Qed.

(** C8, as worded, fails: a [total_tokens] of -5 is an integer, and is
    returned as it is. *)
Lemma negative_total_counterexample :
  _extract_total_tokens (response_with_total (-5)) = Ok (Some (IntV (-5))) /\
  int_value (IntV (-5)) < 0.
Proof. split; [reflexivity | reflexivity]. Qed.

(** C8, amended.  A value returned by token extraction is the integer
    [total_tokens] entry that comes first in strategy order, exactly as the
    response stores it; so it is not negative unless that entry is.  Other
    numbers in the response, and totals that come later, have no part in
    it. *)
Theorem extracted_total_is_stored_total (response : pyval) (total : pyint) :
  _extract_total_tokens response = Ok (Some total) ->
  head (stored_totals response) = Some total /\
  ((forall entry, head (stored_totals response) = Some entry -> 0 <= int_value entry) ->
   0 <= int_value total).
Proof.
  intros Hextract. apply extract_stored in Hextract.
  split; [exact Hextract|]. intros Hentry. apply Hentry. exact Hextract.
Qed.

Lemma extracted_total_is_stored_total_witness :
  _extract_total_tokens response_mixed_signs = Ok (Some (IntV 5)) /\
  head (stored_totals response_mixed_signs) = Some (IntV 5) /\
  0 <= int_value (IntV 5) /\
  head (stored_totals (response_with_total (-5))) = Some (IntV (-5)).
Proof.
  destruct (extracted_total_is_stored_total response_mixed_signs (IntV 5) eq_refl)
    as [Hstored Hsign].
  destruct (extracted_total_is_stored_total (response_with_total (-5)) (IntV (-5))
              eq_refl) as [Hnegative _].
  split; [reflexivity|]. split; [exact Hstored|]. split; [|exact Hnegative].
  apply Hsign. intros entry [= <-]. simpl. lia.
Defined.

(** ** Payload *)

Lemma build_payload_body (reason : string) (duration : option Float.float)
    (total_tokens : option pyint) :
  body (_build_payload reason duration total_tokens) =
    ("Reason: " +:+ reason) +:+
    match duration with
    | Some d => newline +:+ ("Latency: " +:+ format_2f d +:+ "s")
    | None => ""
    end +:+
    match total_tokens with
    | Some t => newline +:+ ("Total tokens: " +:+ py_str_int t)
    | None => ""
    end.
Proof.
  unfold _build_payload. cbv zeta.
  destruct duration as [d|], total_tokens as [t|]; cbn [app join body].
  - reflexivity.
  - rewrite append_nil_r. reflexivity.
  - reflexivity.
  - rewrite !append_nil_r. reflexivity.
Qed.

(** C9.  For every reason, optional elapsed duration and optional token
    count, the payload's title is ["LangSmith alert: " + reason] and its
    body is the newline-join of the lines ["Reason: " + reason], then, when
    the duration is present, ["Latency: " + text + "s"] where the text shows
    the duration to two decimal places (sign, whole part, point, two
    digits: the nearest number of hundredths, or [nan], [inf]), then, when
    the count is present, ["Total tokens: " + text] where the text is the
    decimal numeral of the count.  Written out, the body is the reason
    line followed by a newline and a line for each metric present; nothing
    follows the last line. *)
Theorem build_payload_format (reason : string) (duration : option Float.float)
    (total_tokens : option pyint) :
  exists latency count : option string,
    option_Forall2 two_decimals duration latency /\
    option_Forall2 count_text total_tokens count /\
    title (_build_payload reason duration total_tokens) =
      "LangSmith alert: " +:+ reason /\
    body (_build_payload reason duration total_tokens) =
      join newline
        (["Reason: " +:+ reason] ++
         match latency with
         | Some text => ["Latency: " +:+ text +:+ "s"]
         | None => []
         end ++
         match count with
         | Some text => ["Total tokens: " +:+ text]
         | None => []
         end) /\
    body (_build_payload reason duration total_tokens) =
      ("Reason: " +:+ reason) +:+
      match latency with
      | Some text => newline +:+ ("Latency: " +:+ text +:+ "s")
      | None => ""
      end +:+
      match count with
      | Some text => newline +:+ ("Total tokens: " +:+ text)
      | None => ""
      end.
Proof.
  exists (format_2f <$> duration), (py_str_int <$> total_tokens).
  split; [|split; [|split; [reflexivity|split]]].
  - destruct duration as [d|]; constructor. apply format_2f_two_decimals.
  - destruct total_tokens as [t|]; constructor. apply py_str_int_count_text.
  - destruct duration, total_tokens; reflexivity.
  - rewrite build_payload_body. destruct duration, total_tokens; reflexivity.
Qed.

(** A payload with both metrics, written out. *)
Example build_payload_sample :
  _build_payload "Latency threshold exceeded" (Some (Float.of_ratio 5 2))
                 (Some (IntV 1200)) =
  {| title := "LangSmith alert: Latency threshold exceeded";
     body := "Reason: Latency threshold exceeded" +:+ newline +:+
             "Latency: 2.50s" +:+ newline +:+ "Total tokens: 1200" |}.
Proof. vm_compute. reflexivity. Qed.

(** ** Run timer *)

Lemma pop_duration_run (run_id : string) (now : Float.float) (st : state) :
  _pop_duration run_id now st = (Ok (elapsed st run_id now), popped run_id st).
Proof.
  unfold _pop_duration, elapsed, popped, bind, get_times, put_times, ret.
  simpl. destruct (_start_times st !! run_id) eqn:Hfind; simpl; [reflexivity|].
  rewrite delete_id by exact Hfind. destruct st; reflexivity.
Qed.

(** ** Frame reasoning for the channel code *)

Lemma extends_refl (P : effect -> Prop) (st : state) : extends P st st.
Proof.
  split; [reflexivity|]. exists []. split; [|constructor].
  symmetry. apply app_nil_r.
Qed.

Lemma extends_trans (P : effect -> Prop) (st1 st2 st3 : state) :
  extends P st1 st2 -> extends P st2 st3 -> extends P st1 st3.
Proof.
  intros [Ht1 (d1 & Hd1 & HP1)] [Ht2 (d2 & Hd2 & HP2)].
  split; [congruence|]. exists (d1 ++ d2). split.
  - rewrite Hd2, Hd1. symmetry. apply app_assoc.
  - apply Forall_app. split; assumption.
Qed.

Section ChannelOnly.

Context {A B : Type} (P : effect -> Prop).

Lemma channel_ret (a : A) : channel_only P (ret a).
Proof. intros st. apply extends_refl. Qed.

Lemma channel_raise (e : exn) : channel_only P (@raise A e).
Proof. intros st. apply extends_refl. Qed.

Lemma channel_lift (r : result A) : channel_only P (lift r).
Proof. intros st. apply extends_refl. Qed.

Lemma channel_emit (e : effect) : P e -> channel_only P (emit e).
Proof.
  intros He st. split; [reflexivity|]. exists [e]. split; [reflexivity|].
  constructor; [exact He | constructor].
Qed.

Lemma channel_get_trace : channel_only P get_trace.
Proof. intros st. apply extends_refl. Qed.

Lemma channel_bind (m : M A) (k : A -> M B) :
  channel_only P m -> (forall a, channel_only P (k a)) -> channel_only P (bind m k).
Proof.
  intros Hm Hk st. unfold bind. specialize (Hm st).
  destruct (m st) as [[a|e] st']; simpl in *; [|exact Hm].
  eapply extends_trans; [exact Hm | apply Hk].
Qed.

Lemma channel_finally (m : M A) (f : M unit) :
  channel_only P m -> channel_only P f -> channel_only P (finally m f).
Proof.
  intros Hm Hf st. unfold finally. specialize (Hm st).
  destruct (m st) as [r st']; simpl in *.
  specialize (Hf st').
  destruct (f st') as [[u|e] st'']; simpl in *;
    (eapply extends_trans; [exact Hm | exact Hf]).
Qed.

Lemma channel_try_except_request (m : M A) (h : string -> M A) :
  channel_only P m -> (forall exc, channel_only P (h exc)) ->
  channel_only P (try_except_request m h).
Proof.
  intros Hm Hh st. unfold try_except_request. specialize (Hm st).
  destruct (m st) as [[a|[]] st']; simpl in *; try exact Hm.
  eapply extends_trans; [exact Hm | apply Hh].
Qed.

End ChannelOnly.

Lemma channel_when (P : effect -> Prop) (b : bool) (m : M unit) :
  channel_only P m -> channel_only P (when b m).
Proof. intros Hm. destruct b; [exact Hm | apply channel_ret]. Qed.

Create HintDb channel.
#[local] Hint Resolve channel_ret channel_raise channel_lift channel_emit
  channel_get_trace channel_when : channel.

Section ChannelCode.

Variable config : AlertConfig.
Variable env : environment.

Lemma channel_smtp_call (P : effect -> Prop) (e : effect) :
  P e -> channel_only P (smtp_call env e).
Proof.
  intros He. unfold smtp_call.
  apply channel_bind; [auto with channel|]. intros _.
  apply channel_bind; [auto with channel|]. intros history.
  destruct (smtp_reply env history); auto with channel.
Qed.

(** The effects of [_send_email] are SMTP calls that satisfy [P]. *)
Lemma channel_send_email_calls (P : effect -> Prop) (subject body : string) :
  (forall e, is_smtp_effect e = true -> sent_payload e = None -> P e) ->
  P (SmtpSendMessage subject (smtp_from config) (smtp_to config) body) ->
  channel_only P (_send_email config env subject body).
Proof.
  intros Hplain Hmessage. unfold _send_email, with_smtp.
  do 3 (apply channel_bind; [apply channel_lift|]; intros _).
  apply channel_bind; [apply channel_smtp_call, Hplain; reflexivity|]. intros _.
  apply channel_finally; [|apply channel_smtp_call, Hplain; reflexivity].
  apply channel_bind.
  { apply channel_when, channel_smtp_call, Hplain; reflexivity. }
  intros _. apply channel_bind.
  { apply channel_when, channel_smtp_call, Hplain; reflexivity. }
  intros _. apply channel_smtp_call. exact Hmessage.
Qed.

(** The effects of [post_and_check] are at most one request. *)
Lemma channel_post_and_check (P : effect -> Prop) (url : string) (data : payload)
    (timeout : Float.float) :
  P (HttpPost url (title data) (body data) timeout) ->
  channel_only P (post_and_check env url data timeout).
Proof.
  intros Hpost. unfold post_and_check.
  apply channel_bind; [apply channel_emit; exact Hpost|]. intros _.
  apply channel_bind; [apply channel_get_trace|]. intros history.
  destruct (http_reply env history) as
    [status_code error_text | detail | detail | detail];
    repeat (apply channel_bind; [apply channel_lift | intros _]);
    try destruct (rejected_status status_code); auto with channel.
Qed.

Lemma channel_send_email (p : payload) :
  channel_only (channel_effect p) (_send_email config env (title p) (body p)).
Proof.
  apply channel_send_email_calls.
  - intros e He Hs. split; [destruct e; try discriminate; reflexivity|].
    intros q Hq. congruence.
  - split; [reflexivity|]. intros q [= <-]. destruct p; reflexivity.
Qed.

Lemma channel_send_webhook (p : payload) :
  channel_only (channel_effect p) (_send_webhook config env p).
Proof.
  unfold _send_webhook.
  destruct (negb (nonempty (webhook_url config))).
  - apply channel_emit. split; [reflexivity | discriminate].
  - apply channel_try_except_request.
    + apply channel_post_and_check. split; [reflexivity|].
      intros q [= <-]. destruct p; reflexivity.
    + intros exc. apply channel_emit. split; [reflexivity | discriminate].
Qed.

Lemma channel_smtp_configured (p : payload) :
  channel_only (channel_effect p) (_smtp_configured config).
Proof.
  unfold _smtp_configured.
  destruct (nonempty (smtp_host config) && nonempty (smtp_from config)
            && nonempty (smtp_to config)); [auto with channel|].
  apply channel_bind; [|auto with channel].
  apply channel_emit. split; [reflexivity | discriminate].
Qed.

(** Every [_alert] call leaves the timer map alone, writes its alert line
    first, and lets nothing but its own payload reach a channel. *)
Lemma alert_effects (reason : string) (duration : option Float.float)
    (total_tokens : option pyint) (st : state) :
  exists delta,
    snd (_alert config env reason duration total_tokens st) =
      {| _start_times := _start_times st;
         trace := trace st ++ LogAlert reason :: delta |} /\
    Forall (channel_effect (_build_payload reason duration total_tokens)) delta.
Proof.
  set (p := _build_payload reason duration total_tokens).
  assert (Hrest : channel_only (channel_effect p)
            (if String.eqb (notify_mode config) "webhook" then _send_webhook config env p
             else if String.eqb (notify_mode config) "smtp" then
               bind (_smtp_configured config)
                 (fun configured => if negb configured then ret tt
                                    else _send_email config env (title p) (body p))
             else ret tt)).
  { destruct (String.eqb (notify_mode config) "webhook");
      [apply channel_send_webhook|].
    destruct (String.eqb (notify_mode config) "smtp"); [|auto with channel].
    apply channel_bind; [apply channel_smtp_configured|].
    intros []; simpl; [apply channel_send_email | auto with channel]. }
  unfold _alert, bind at 1. simpl. fold p.
  match goal with |- context [snd (?m ?s)] => destruct (Hrest s) as [Ht (delta & Hd & HP)] end.
  exists delta. split; [|exact HP].
  simpl in Ht, Hd.
  match goal with |- snd ?x = _ => destruct x as [r [times tr]] end.
  simpl in *. subst. rewrite <- app_assoc. reflexivity.
Qed.

End ChannelCode.

Lemma new_effects_app (st st' : state) (delta : list effect) :
  trace st' = trace st ++ delta -> new_effects st st' = delta.
Proof. intros H. unfold new_effects. rewrite H. apply drop_app_length. Qed.

Lemma alerts_of_channel (p : payload) (delta : list effect) :
  Forall (channel_effect p) delta -> alerts_of delta = [].
Proof.
  induction 1 as [|e delta [He _] _ IH]; [reflexivity|].
  unfold alerts_of in *. simpl. rewrite He. exact IH.
Qed.

Lemma sent_payloads_channel (p : payload) (delta : list effect) :
  Forall (channel_effect p) delta -> Forall (fun q => q = p) (sent_payloads delta).
Proof.
  induction 1 as [|e delta [_ He] _ IH]; [constructor|].
  unfold sent_payloads in *. simpl.
  destruct (sent_payload e) as [q|] eqn:Hq; [|exact IH].
  constructor; [apply He; reflexivity | exact IH].
Qed.

Lemma alert_channel_only (config : AlertConfig) (env : environment)
    (reason : string) (duration : option Float.float) (total_tokens : option pyint) :
  channel_only (fun _ => True) (_alert config env reason duration total_tokens).
Proof.
  intros st.
  destruct (alert_effects config env reason duration total_tokens st)
    as (delta & Hst & _).
  rewrite Hst. split; [reflexivity|]. simpl.
  exists (LogAlert reason :: delta). split; [reflexivity|].
  apply Forall_forall. intros; exact I.
Qed.

Lemma alert_once (config : AlertConfig) (env : environment)
    (reason : string) (duration : option Float.float) (total_tokens : option pyint)
    (before st : state) :
  trace st = trace before ->
  let st' := snd (_alert config env reason duration total_tokens st) in
  alerts_of (new_effects before st') = [reason] /\
  Forall (fun p => p = _build_payload reason duration total_tokens)
         (sent_payloads (new_effects before st')).
Proof.
  intros Htrace st'. subst st'.
  destruct (alert_effects config env reason duration total_tokens st)
    as (delta & -> & Hdelta).
  rewrite (new_effects_app _ _ (LogAlert reason :: delta))
    by (simpl; rewrite Htrace; reflexivity).
  split.
  - change (alerts_of (LogAlert reason :: delta)) with (reason :: alerts_of delta).
    rewrite (alerts_of_channel _ _ Hdelta). reflexivity.
  - change (sent_payloads (LogAlert reason :: delta)) with (sent_payloads delta).
    apply sent_payloads_channel. exact Hdelta.
Qed.

(** ** Webhook channel *)






(** The scenario of a webhook that answers with a server error: the
    dispatch returns, and the log holds the alert line and the failure
    warning. *)
Example webhook_failure_log :
  let result :=
    _alert (config_for "webhook" "http://x") env_failing
           "Latency threshold exceeded" (Some (Float.of_ratio 5 2)) None
           initial_state in
  fst result = Ok tt /\
  omap log_line (trace (snd result)) =
    ["LangSmith alert: Latency threshold exceeded";
     "Webhook alert failed: 500 Server Error"].
Proof. vm_compute. split; reflexivity. Qed.

(** ** The timer map along a run *)

Lemma handle_times (config : AlertConfig) (env : environment)
    (ev : event) (now : Float.float) (st : state) :
  _start_times (snd (handle config env ev now st)) =
  next_times ev now (_start_times st).
Proof.
  assert (Hafter : forall run_id (k : option Float.float -> M unit),
             (forall d, channel_only (fun _ => True) (k d)) ->
             _start_times (snd (bind (_pop_duration run_id now) k st)) =
             delete run_id (_start_times st)).
  { intros run_id k Hk. unfold bind. rewrite pop_duration_run.
    destruct (Hk (elapsed st run_id now) (popped run_id st)) as [Ht _].
    rewrite Ht. reflexivity. }
  destruct ev as [[run_id|] | response kw | error kw | error kw]; simpl.
  - unfold on_llm_start. destruct (rid_truthy run_id); reflexivity.
  - reflexivity.
  - apply Hafter. intros d.
    apply channel_bind; [apply channel_lift|]. intros total.
    apply channel_bind; [|intros _]; apply channel_when, alert_channel_only.
  - apply Hafter. intros d. apply alert_channel_only.
  - apply Hafter. intros d. apply alert_channel_only.
Qed.

Lemma run_keeps_absent (config : AlertConfig) (env : environment) (key : string)
    (events : list (event * Float.float)) :
  forall st,
    _start_times st !! key = None ->
    forallb (fun en => negb (records_under key (fst en))) events = true ->
    _start_times (run config env events st) !! key = None.
Proof.
  induction events as [|[ev now] events IH]; intros st Hkey Hother; [exact Hkey|].
  simpl in Hother. apply andb_prop in Hother as [Hev Hrest].
  simpl. apply IH; [|exact Hrest].
  rewrite handle_times.
  destruct ev as [[run_id|] | response kw | error kw | error kw]; simpl in *;
    try exact Hkey; try (apply lookup_delete_None; right; exact Hkey).
  destruct (rid_truthy run_id); [|exact Hkey]. simpl in Hev.
  apply lookup_insert_None. split; [exact Hkey|].
  intros Heq. rewrite Heq, String.eqb_refl in Hev. discriminate.
Qed.

(** An entry of the timer map was put there by a start event. *)
Lemma run_entry_recorded (config : AlertConfig) (env : environment)
    (key : string) (start : Float.float) (events : list (event * Float.float)) :
  forall st,
    _start_times (run config env events st) !! key = Some start ->
    _start_times st !! key = Some start \/
    exists run_id,
      (LlmStart (Some run_id), start) ∈ events /\
      rid_truthy run_id = true /\ rid_str run_id = key.
Proof.
  induction events as [|[ev now] events IH]; intros st Hkey; [left; exact Hkey|].
  simpl in Hkey. apply IH in Hkey as [Hkey | (run_id & Hin & Htruthy & Hstr)].
  - rewrite handle_times in Hkey.
    destruct ev as [[run_id|] | response kw | error kw | error kw]; simpl in Hkey;
      try (left; exact Hkey);
      try (apply lookup_delete_Some in Hkey as [_ Hkey]; left; exact Hkey).
    destruct (rid_truthy run_id) eqn:Htruthy; [|left; exact Hkey].
    apply lookup_insert_Some in Hkey as [[Hstr Hnow] | [_ Hkey]]; [|left; exact Hkey].
    right. exists run_id. subst now. split; [left | split; assumption].
  - right. exists run_id. split; [right; exact Hin | split; assumption].
Qed.

Lemma reading_leb_refl (t : Float.float) : reading t = true -> Float.leb t t = true.
Proof.
  unfold reading. intros H. apply andb_prop in H as [_ Hfinite].
  apply leb_refl. intros ->. discriminate.
Qed.

Lemma next_times_in_past (ev : event) (now : Float.float)
    (times : gmap string Float.float) :
  reading now = true ->
  map_Forall (fun _ start => reading start = true /\ Float.leb start now = true) times ->
  map_Forall (fun _ start => reading start = true /\ Float.leb start now = true)
             (next_times ev now times).
Proof.
  intros Hnow Hpast.
  destruct ev as [[run_id|] | response kw | error kw | error kw]; simpl;
    try exact Hpast; try (apply map_Forall_delete; exact Hpast).
  destruct (rid_truthy run_id); [|exact Hpast].
  apply map_Forall_insert_2; [|exact Hpast].
  split; [exact Hnow | apply reading_leb_refl; exact Hnow].
Qed.

Lemma run_starts_in_past (config : AlertConfig) (env : environment)
    (events : list (event * Float.float)) :
  forall st t,
    map_Forall (fun _ start => reading start = true /\ Float.leb start t = true)
               (_start_times st) ->
    monotonic t events ->
    map_Forall (fun _ start =>
                  reading start = true /\
                  Float.leb start (last_reading t events) = true)
               (_start_times (run config env events st)).
Proof.
  induction events as [|[ev now] events IH]; intros st t Hpast Hmono;
    [exact Hpast|].
  destruct Hmono as (Hnow & Hle & Hmono). simpl. apply IH; [|exact Hmono].
  rewrite handle_times. apply next_times_in_past; [exact Hnow|].
  intros key start Hkey. destruct (Hpast key start Hkey) as [Hstart Hbefore].
  split; [exact Hstart|]. eapply leb_trans; [exact Hbefore | exact Hle].
Qed.

(** On every run with a monotonic clock, an elapsed time is not negative. *)
Lemma elapsed_not_negative (config : AlertConfig) (env : environment)
    (events : list (event * Float.float)) (t0 now : Float.float) (key : string)
    (d : Float.float) :
  monotonic t0 events ->
  reading now = true ->
  Float.leb (last_reading t0 events) now = true ->
  elapsed (run config env events initial_state) key now = Some d ->
  Float.leb Float.zero d = true.
Proof.
  intros Hmono Hreading Hnow. unfold elapsed.
  destruct (_start_times (run config env events initial_state) !! key)
    as [start|] eqn:Hkey; [|discriminate].
  intros [= <-].
  destruct (run_starts_in_past config env events initial_state t0
              (map_Forall_empty _) Hmono key start Hkey) as [Hstart Hbefore].
  unfold reading in Hreading, Hstart.
  apply andb_prop in Hreading as [Hwf Hfin], Hstart as [Hwf' Hfin'].
  apply sub_nonneg; try assumption.
  eapply leb_trans; [exact Hbefore | exact Hnow].
Qed.

(** ** Taking the elapsed time *)

(** C4.  Taking the elapsed time of a run identifier that has an entry
    removes the entry and returns the current reading minus the stored
    start, the binary64 difference of the two; a second take for the same
    identifier returns none.  Without an entry the result is none, the
    state is unchanged, and nothing is raised.  The duration returned is
    not negative when the stored start is not later than the current
    reading (both being numbers), which is the case on every state reached
    from the initial one under a clock that never goes backwards. *)
Theorem pop_duration_spec (run_id : string) (now : Float.float) (st : state) :
  (forall start : Float.float,
      _start_times st !! run_id = Some start ->
      _pop_duration run_id now st =
        (Ok (Some (SFsub 53 1024 now start)),
         {| _start_times := delete run_id (_start_times st); trace := trace st |}) /\
      (reading start = true -> reading now = true -> SFleb start now = true ->
       SFleb (S754_zero false) (SFsub 53 1024 now start) = true) /\
      forall later,
        fst (_pop_duration run_id later (snd (_pop_duration run_id now st))) = Ok None) /\
  (_start_times st !! run_id = None ->
   _pop_duration run_id now st = (Ok None, st)) /\
  (forall config env events t0 (d : Float.float),
      st = run config env events initial_state ->
      monotonic t0 events ->
      reading now = true ->
      SFleb (last_reading t0 events) now = true ->
      fst (_pop_duration run_id now st) = Ok (Some d) ->
      SFleb (S754_zero false) d = true).
Proof.
  split; [|split].
  - intros start Hfind. rewrite pop_duration_run. unfold elapsed. rewrite Hfind.
    split; [reflexivity|]. split.
    + unfold reading. intros Hstart Hnow Hle.
      apply andb_prop in Hstart as [Hwf Hfin], Hnow as [Hwf' Hfin'].
      apply sub_nonneg; assumption.
    + intros later. rewrite pop_duration_run. simpl.
      unfold elapsed. simpl. rewrite lookup_delete_eq. reflexivity.
  - intros Hfind. rewrite pop_duration_run. unfold elapsed, popped.
    rewrite Hfind, delete_id by exact Hfind. destruct st; reflexivity.
  - intros config env events t0 d -> Hmono Hreading Hnow. rewrite pop_duration_run.
    simpl. intros [= Hd].
    eapply elapsed_not_negative; eassumption.
Qed.

Lemma pop_duration_spec_witness :
  _pop_duration "r1" (Float.of_ratio 51 10) st_r1 =
    (Ok (Some (SFsub 53 1024 (Float.of_ratio 51 10) (Float.of_Z 0))),
     {| _start_times := delete "r1" (_start_times st_r1); trace := trace st_r1 |}) /\
  SFleb (S754_zero false) (SFsub 53 1024 (Float.of_ratio 51 10) (Float.of_Z 0)) = true /\
  fst (_pop_duration "r1" (Float.of_Z 6)
         (snd (_pop_duration "r1" (Float.of_ratio 51 10) st_r1))) = Ok None /\
  _pop_duration "r2" (Float.of_ratio 51 10) st_r1 = (Ok None, st_r1) /\
  (forall d,
      fst (_pop_duration "r1" (Float.of_ratio 51 10) st_r1) = Ok (Some d) ->
      SFleb (S754_zero false) d = true).
Proof.
  destruct (pop_duration_spec "r1" (Float.of_ratio 51 10) st_r1) as (Hsome & _ & Hrun).
  destruct (Hsome (Float.of_Z 0)) as (Hpop & Hpos & Hagain); [reflexivity|].
  destruct (pop_duration_spec "r2" (Float.of_ratio 51 10) st_r1) as (_ & Hnone & _).
  split; [exact Hpop|]. split; [apply Hpos; reflexivity|].
  split; [apply Hagain|]. split; [apply Hnone; reflexivity|].
  intros d.
  apply (Hrun (config_for "log" "") env_working [(LlmStart run_r1, Float.of_Z 0)]
              (Float.of_Z 0) d).
  - reflexivity.
  - split; [reflexivity|]. split; [reflexivity | exact I].
  - reflexivity.
  - reflexivity.
Defined.

(** A run started at reading 0.1 and taken at reading 5.1 has lasted 5
    seconds: the subtraction rounds. *)
Example pop_duration_rounds :
  fst (_pop_duration "r1" (Float.of_ratio 51 10)
         (snd (on_llm_start run_r1 (Float.of_ratio 1 10) initial_state))) =
  Ok (Some (Float.of_Z 5)).
Proof. vm_compute. reflexivity. Qed.

(** ** Error events *)

Lemma error_handler_run (config : AlertConfig) (env : environment)
    (prefix error : string) (kw : kwargs) (now : Float.float) (st : state) :
  bind (_pop_duration (run_id_key kw) now)
       (fun duration => _alert config env (prefix +:+ error) duration None) st =
  _alert config env (prefix +:+ error) (elapsed st (run_id_key kw) now) None
         (popped (run_id_key kw) st).
Proof. unfold bind. rewrite pop_duration_run. reflexivity. Qed.

Lemma error_alert_holds (config : AlertConfig) (env : environment)
    (handler : string -> kwargs -> Float.float -> M unit) (prefix : string) :
  (forall error kw now,
      handler error kw now =
      bind (_pop_duration (run_id_key kw) now)
           (fun duration => _alert config env (prefix +:+ error) duration None)) ->
  forall error kw now st,
    error_alert_spec config env handler prefix error kw now st.
Proof.
  intros Hdef error kw now st. unfold error_alert_spec. cbv zeta.
  rewrite Hdef, error_handler_run.
  destruct (alert_once config env (prefix +:+ error)
              (elapsed st (run_id_key kw) now) None st (popped (run_id_key kw) st))
    as [Hone Hsent]; [reflexivity|].
  split; [exact Hone|]. split; [exact Hsent|]. split; [reflexivity|].
  rewrite build_payload_body. unfold elapsed.
  destruct (_start_times st !! run_id_key kw) as [start|].
  - exists (format_2f (Float.sub now start)).
    split; [apply format_2f_two_decimals|].
    rewrite (append_nil_r (newline +:+ _)). reflexivity.
  - rewrite !append_nil_r. reflexivity.
Qed.

(** C3, as worded, fails: after a start whose identifier is the string
    ["None"], an error event with [run_id=None], for an invocation that
    recorded no start, looks up [str(None)] and gets a latency line from
    the other invocation's entry. *)
Lemma error_without_start_counterexample :
  no_run_id run_id_is_None = true /\
  on_llm_start run_id_is_None (Float.of_Z 1) st_named_None = (Ok tt, st_named_None) /\
  sent_payloads
    (new_effects st_named_None
       (snd (on_llm_error (config_for "webhook" "http://x") env_working "boom"
                          run_id_is_None (Float.of_Z 10) st_named_None))) =
    [{| title := "LangSmith alert: LLM error: boom";
        body := "Reason: LLM error: boom" +:+ newline +:+ "Latency: 10.00s" |}].
Proof. vm_compute. repeat split; reflexivity. Qed.

(** C3, amended.  For every error event, under every configuration,
    exactly one alert is dispatched; its reason is ["LLM error: "] (for a
    pipeline error ["Chain error: "]) followed by the error's description;
    any payload that reaches a channel is the one built from that reason,
    the elapsed time obtained for the event's key and no token count; its
    body is the reason line, followed by a latency line exactly when the
    timer map holds a start under the key the event looks up, which shows
    the binary64 difference of the readings to two decimals.  On a state
    reached from the initial one, such an entry exists only if a start
    event recorded it under that key; with no entry under the key there is
    no latency line. *)
Theorem error_events_alert_exactly_once (config : AlertConfig) (env : environment)
    (error : string) (kw : kwargs) (now : Float.float) (st : state) :
  error_alert_spec config env (on_llm_error config env) "LLM error: "
                   error kw now st /\
  error_alert_spec config env (on_chain_error config env) "Chain error: "
                   error kw now st /\
  (forall events start,
      st = run config env events initial_state ->
      _start_times st !! run_id_key kw = Some start ->
      exists run_id,
        (LlmStart (Some run_id), start) ∈ events /\
        rid_truthy run_id = true /\ rid_str run_id = run_id_key kw) /\
  (_start_times st !! run_id_key kw = None ->
   forall prefix,
     _build_payload (prefix +:+ error) (elapsed st (run_id_key kw) now) None =
       {| title := "LangSmith alert: " +:+ (prefix +:+ error);
          body := "Reason: " +:+ (prefix +:+ error) |}).
Proof.
  split; [|split; [|split]]; try (apply error_alert_holds; reflexivity).
  - intros events start -> Hkey.
    apply run_entry_recorded in Hkey as [Hkey | Hrecorded]; [|exact Hrecorded].
    simpl in Hkey. rewrite lookup_empty in Hkey. discriminate.
  - intros Hnone prefix. unfold elapsed. rewrite Hnone. reflexivity.
Qed.

Lemma error_events_alert_exactly_once_witness :
  alerts_of
    (new_effects st_r1
       (snd (on_llm_error (config_for "smtp" "") env_failing "boom" run_r1
                          (Float.of_Z 3) st_r1))) =
    ["LLM error: boom"] /\
  alerts_of
    (new_effects st_r1
       (snd (on_chain_error (config_for "smtp" "") env_failing "boom" None
                            (Float.of_Z 3) st_r1))) =
    ["Chain error: boom"] /\
  body (_build_payload "Chain error: boom" (elapsed st_r1 "" (Float.of_Z 3)) None) =
    "Reason: Chain error: boom" /\
  (exists text,
      two_decimals (SFsub 53 1024 (Float.of_Z 3) (Float.of_Z 0)) text /\
      body (_build_payload "LLM error: boom" (elapsed st_r1 "r1" (Float.of_Z 3)) None) =
        "Reason: LLM error: boom" +:+ newline +:+ ("Latency: " +:+ text +:+ "s")) /\
  (exists run_id,
      (LlmStart (Some run_id), Float.of_Z 0) ∈ [(LlmStart run_r1, Float.of_Z 0)] /\
      rid_truthy run_id = true /\ rid_str run_id = "r1") /\
  _build_payload "Chain error: boom" (elapsed st_r1 "" (Float.of_Z 3)) None =
    {| title := "LangSmith alert: Chain error: boom";
       body := "Reason: Chain error: boom" |}.
Proof.
  destruct (error_events_alert_exactly_once (config_for "smtp" "") env_failing
              "boom" run_r1 (Float.of_Z 3) st_r1)
    as ((Hllm & _ & _ & Hlatency) & _ & Hrecorded & _).
  destruct (error_events_alert_exactly_once (config_for "smtp" "") env_failing
              "boom" None (Float.of_Z 3) st_r1)
    as (_ & (Hchain & _ & _ & Hbody) & _ & Hplain).
  split; [exact Hllm|]. split; [exact Hchain|]. split; [exact Hbody|].
  split; [exact Hlatency|]. split.
  - apply (Hrecorded [(LlmStart run_r1, Float.of_Z 0)] (Float.of_Z 0)); reflexivity.
  - apply (Hplain eq_refl "Chain error: ").
Defined.

(** An error event at reading 3 for a run started at reading 0, then a
    second error event for the same run, delivered to a webhook. *)
Example error_event_scenario :
  let config := config_for "webhook" "http://x" in
  let st' := snd (on_llm_error config env_working "boom" run_r1 (Float.of_Z 3) st_r1) in
  sent_payloads (trace st') =
    [{| title := "LangSmith alert: LLM error: boom";
        body := "Reason: LLM error: boom" +:+ newline +:+ "Latency: 3.00s" |}] /\
  sent_payloads
    (new_effects st'
       (snd (on_chain_error config env_working "boom" run_r1 (Float.of_Z 4) st'))) =
    [{| title := "LangSmith alert: Chain error: boom";
        body := "Reason: Chain error: boom" |}].
Proof. vm_compute. split; reflexivity. Qed.

(** ** Success events *)

Lemma on_llm_end_run (config : AlertConfig) (env : environment)
    (response : pyval) (kw : kwargs) (now : Float.float) (st : state) :
  on_llm_end config env response kw now st =
  let duration := elapsed st (run_id_key kw) now in
  match _extract_total_tokens response with
  | Ok total_tokens =>
      bind (when (exceeds_latency config duration)
              (_alert config env "Latency threshold exceeded" duration total_tokens))
           (fun _ =>
              when (exceeds_tokens config total_tokens)
                (_alert config env "Token threshold exceeded" duration total_tokens))
           (popped (run_id_key kw) st)
  | Raise e => (Raise e, popped (run_id_key kw) st)
  end.
Proof.
  unfold on_llm_end. unfold bind at 1. rewrite pop_duration_run.
  unfold bind at 1, lift. destruct (_extract_total_tokens response); reflexivity.
Qed.



(** The scenario of a slow run: start at 0, success at 2.5 with 10 total
    tokens, thresholds 1 second and 50 tokens. *)
Example slow_run_scenario :
  let config := config_for "webhook" "http://x" in
  on_llm_end config env_working (response_with_total 10) run_r1
             (Float.of_ratio 5 2) st_r1 =
  (Ok tt,
   {| _start_times := ∅;
      trace :=
        [LogAlert "Latency threshold exceeded";
         HttpPost "http://x" "LangSmith alert: Latency threshold exceeded"
                  ("Reason: Latency threshold exceeded" +:+ newline +:+
                   "Latency: 2.50s" +:+ newline +:+ "Total tokens: 10")
                  (Float.of_Z 5)] |}).
Proof. vm_compute. reflexivity. Qed.

(** A run started at 0.1 and ended at 5.1 against a threshold of 5
    seconds: the elapsed time is 5 seconds and the latency alert is
    dispatched. *)
Example rounded_latency_alerts :
  let config :=
    {| latency_seconds := Float.of_Z 5; token_threshold := 50; notify_mode := "log";
       webhook_url := ""; webhook_timeout_seconds := Float.of_Z 5;
       smtp_host := ""; smtp_port := 587; smtp_username := ""; smtp_password := "";
       smtp_from := ""; smtp_to := ""; smtp_use_tls := true |} in
  let st := snd (on_llm_start run_r1 (Float.of_ratio 1 10) initial_state) in
  trace (snd (on_llm_end config env_working (PyObject []) run_r1
                         (Float.of_ratio 51 10) st)) =
    [LogAlert "Latency threshold exceeded"].
Proof. vm_compute. reflexivity. Qed.

(** C2 fails on the SMTP path: both thresholds are met (2.5 s against 1 s,
    100 tokens against 50), the latency alert is dispatched, its delivery
    raises, and the token alert is never dispatched. *)
Theorem smtp_failure_drops_token_alert :
  let duration := elapsed st_r1 "r1" (Float.of_ratio 5 2) in
  let result :=
    on_llm_end (config_for "smtp" "") env_failing (response_with_total 100) run_r1
               (Float.of_ratio 5 2) st_r1 in
  exceeds_latency (config_for "smtp" "") duration = true /\
  _extract_total_tokens (response_with_total 100) = Ok (Some (IntV 100)) /\
  exceeds_tokens (config_for "smtp" "") (Some (IntV 100)) = true /\
  fst result = Raise (SMTPException "connection refused") /\
  alerts_of (new_effects st_r1 (snd result)) = ["Latency threshold exceeded"].
Proof. vm_compute. repeat split; reflexivity. Qed.

(** ** Exceptions at the handler boundary *)



(** C6 fails on a response whose [generations] attribute is not a
    sequence: the integer 5 there offers no token count, the extractor
    raises [TypeError] when it loops over it, and so does the success
    entry point, under every configuration and in every world. *)
Theorem non_sequence_generations_raise :
  metadata_totals response_bad_generations = [] /\
  stored_totals response_bad_generations = [] /\
  _extract_total_tokens response_bad_generations = Raise TypeError /\
  forall config env kw now st,
    fst (on_llm_end config env response_bad_generations kw now st) = Raise TypeError.
Proof.
  split; [reflexivity|]. split; [reflexivity|]. split; [reflexivity|].
  intros config env kw now st. rewrite on_llm_end_run. reflexivity.
Qed.

(** In SMTP mode, with SMTP configured and accepted header values, a mail
    server that cannot be reached makes every dispatch raise. *)
Lemma smtp_connect_failure_propagates (config : AlertConfig) (env : environment)
    (reason : string) (duration : option Float.float) (total_tokens : option pyint)
    (st : state) (detail : string) :
  notify_mode config = "smtp" ->
  nonempty (smtp_host config) && nonempty (smtp_from config)
    && nonempty (smtp_to config) = true ->
  headers_accepted env config ("LangSmith alert: " +:+ reason) = true ->
  (forall history, smtp_reply env history = Some detail) ->
  fst (_alert config env reason duration total_tokens st) =
    Raise (SMTPException detail).
Proof.
  intros Hmode Hconfigured Hheaders Hdown. unfold _alert. rewrite Hmode. cbv zeta.
  change (title (_build_payload reason duration total_tokens))
    with ("LangSmith alert: " +:+ reason).
  generalize (body (_build_payload reason duration total_tokens)). intros b.
  simpl String.eqb. unfold _smtp_configured. rewrite Hconfigured.
  unfold headers_accepted, address_accepted in Hheaders.
  unfold _send_email, set_header, set_address_header.
  destruct (multiline ("LangSmith alert: " +:+ reason)); [discriminate|].
  destruct (multiline (smtp_from config)); [discriminate|].
  destruct (address_error env (smtp_from config)); [discriminate|].
  destruct (multiline (smtp_to config)); [discriminate|].
  destruct (address_error env (smtp_to config)); [discriminate|].
  unfold with_smtp, smtp_call, lift, bind, emit, get_trace, ret, raise.
  simpl. rewrite Hdown. reflexivity.
Qed.

(** C1 fails on the SMTP path: with SMTP configured and the mail server
    refusing the connection, an invocation-error event makes the handler
    raise, after the alert line has been logged. *)
Theorem smtp_failure_escapes_handler :
  handle (config_for "smtp" "") env_failing (LlmError "boom" run_r1) (Float.of_Z 3)
         st_r1 =
  (Raise (SMTPException "connection refused"),
   {| _start_times := ∅;
      trace := [LogAlert "LLM error: boom"; SmtpConnect "mail.example" 587] |}).
Proof. vm_compute. reflexivity. Qed.

(** ** Start events without a run identifier *)

(** C10, as worded, fails: after a start whose identifier is the string
    ["None"], a start event with [run_id=None] records nothing, yet the
    success event of that invocation looks up [str(None)], obtains the
    other run's 10 seconds and dispatches a latency alert. *)
Lemma start_without_run_id_counterexample :
  no_run_id run_id_is_None = true /\
  on_llm_start run_id_is_None (Float.of_Z 1) st_named_None = (Ok tt, st_named_None) /\
  fst (_pop_duration (run_id_key run_id_is_None) (Float.of_Z 10) st_named_None) =
    Ok (Some (SFsub 53 1024 (Float.of_Z 10) (Float.of_Z 0))) /\
  alerts_of
    (new_effects st_named_None
       (snd (on_llm_end (config_for "log" "") env_failing (PyObject [])
                        run_id_is_None (Float.of_Z 10) st_named_None))) =
    ["Latency threshold exceeded"].
Proof. vm_compute. repeat split; reflexivity. Qed.

(** C10, amended.  A start event delivered without a run identifier
    (keyword absent, or a falsy value) returns with the state unchanged:
    nothing is recorded.  Hence, if
    no start was pending under the key that the invocation's later events
    look up, and no other start is recorded under that key in between, a
    later take for that key yields no elapsed time, a success event
    dispatches no latency alert, and an error event dispatches its alert
    without elapsed time. *)
Theorem start_without_run_id_records_nothing (config : AlertConfig)
    (env : environment) (kw : kwargs) (now : Float.float) (st : state) :
  no_run_id kw = true ->
  on_llm_start kw now st = (Ok tt, st) /\
  forall events,
    _start_times st !! run_id_key kw = None ->
    forallb (fun en => negb (records_under (run_id_key kw) (fst en))) events = true ->
    let st' := run config env events (snd (on_llm_start kw now st)) in
    forall later,
      _pop_duration (run_id_key kw) later st' = (Ok None, st') /\
      (forall response,
          "Latency threshold exceeded" ∉
            alerts_of (new_effects st' (snd (on_llm_end config env response kw later st')))) /\
      (forall error,
          on_llm_error config env error kw later st' =
            _alert config env ("LLM error: " +:+ error) None None st' /\
          on_chain_error config env error kw later st' =
            _alert config env ("Chain error: " +:+ error) None None st').
Proof.
  intros Hfalsy.
  assert (Hstart : on_llm_start kw now st = (Ok tt, st)).
  { unfold on_llm_start. destruct kw as [run_id|]; [|reflexivity].
    simpl in Hfalsy. destruct (rid_truthy run_id); [discriminate | reflexivity]. }
  split; [exact Hstart|].
  intros events Hfree Hother st' later. subst st'. rewrite Hstart. simpl snd.
  set (st' := run config env events st).
  assert (Hnone : _start_times st' !! run_id_key kw = None)
    by (apply run_keeps_absent; assumption).
  assert (Hpopped : popped (run_id_key kw) st' = st').
  { unfold popped. rewrite delete_id by exact Hnone. destruct st'; reflexivity. }
  assert (Helapsed : elapsed st' (run_id_key kw) later = None)
    by (unfold elapsed; rewrite Hnone; reflexivity).
  split; [|split].
  - rewrite pop_duration_run, Helapsed, Hpopped. reflexivity.
  - intros response. rewrite on_llm_end_run. cbv zeta.
    rewrite Helapsed, Hpopped.
    destruct (_extract_total_tokens response) as [total|e].
    + unfold bind, exceeds_latency, when at 1, ret.
      destruct (exceeds_tokens config total); simpl.
      * destruct (alert_once config env "Token threshold exceeded" None total st' st')
          as [-> _]; [reflexivity|].
        intros Hin. apply list_elem_of_singleton in Hin. discriminate.
      * rewrite (new_effects_app st' st' []) by (symmetry; apply app_nil_r).
        apply not_elem_of_nil.
    + simpl. rewrite (new_effects_app st' st' []) by (symmetry; apply app_nil_r).
      apply not_elem_of_nil.
  - intros error. unfold on_llm_error, on_chain_error. cbv zeta.
    rewrite (error_handler_run config env "LLM error: " error kw later st').
    rewrite (error_handler_run config env "Chain error: " error kw later st').
    rewrite Helapsed, Hpopped. split; reflexivity.
Qed.

Lemma start_without_run_id_records_nothing_witness :
  on_llm_start None (Float.of_Z 1) st_r1 = (Ok tt, st_r1) /\
  let st' :=
    run (config_for "log" "") env_failing
        [(LlmStart run_named_None, Float.of_Z 2); (LlmError "boom" run_r1, Float.of_Z 3)]
        (snd (on_llm_start None (Float.of_Z 1) st_r1)) in
  _pop_duration "" (Float.of_Z 9) st' = (Ok None, st') /\
  "Latency threshold exceeded" ∉
    alerts_of (new_effects st'
      (snd (on_llm_end (config_for "log" "") env_failing (response_with_total 100) None
                       (Float.of_Z 9) st'))).
Proof.
  destruct (start_without_run_id_records_nothing (config_for "log" "") env_failing
              None (Float.of_Z 1) st_r1 eq_refl) as [Hstart Hlater].
  split; [exact Hstart|].
  destruct (Hlater [(LlmStart run_named_None, Float.of_Z 2);
                    (LlmError "boom" run_r1, Float.of_Z 3)]
              eq_refl eq_refl (Float.of_Z 9)) as (Hpop & Hend & _).
  split; [exact Hpop | apply Hend].
Defined.

(** * Further properties of the dispatch engine *)

(** ** Channel selection *)

(** X1.  In any mode other than ["webhook"] and ["smtp"] (log mode, or an
    unknown mode), a dispatch returns normally after writing its alert line
    and does nothing else, whatever the rest of the configuration holds. *)
Theorem alert_log_only (config : AlertConfig) (env : environment)
    (reason : string) (duration : option Float.float) (total_tokens : option pyint)
    (st : state) :
  notify_mode config <> "webhook" ->
  notify_mode config <> "smtp" ->
  _alert config env reason duration total_tokens st =
    (Ok tt,
     {| _start_times := _start_times st;
        trace := trace st ++ [LogAlert reason] |}).
Proof.
  intros Hwebhook Hsmtp. unfold _alert. cbv zeta.
  destruct (String.eqb_spec (notify_mode config) "webhook"); [contradiction|].
  destruct (String.eqb_spec (notify_mode config) "smtp"); [contradiction|].
  reflexivity.
Qed.

Lemma alert_log_only_witness :
  _alert (config_for "log" "http://x") env_failing "LLM error: boom" None None st_r1 =
    (Ok tt,
     {| _start_times := _start_times st_r1;
        trace := [LogAlert "LLM error: boom"] |}) /\
  _alert (config_for "pager" "http://x") env_failing "LLM error: boom" None None st_r1 =
    (Ok tt,
     {| _start_times := _start_times st_r1;
        trace := [LogAlert "LLM error: boom"] |}).
Proof.
  split.
  - apply (alert_log_only (config_for "log" "http://x")); discriminate.
  - apply (alert_log_only (config_for "pager" "http://x")); discriminate.
Defined.

(** X2.  In SMTP mode, when the host, the sender or the recipient is
    empty, a dispatch writes the alert line and the configuration warning,
    opens no SMTP session and returns normally. *)
Theorem smtp_unconfigured_skips (config : AlertConfig) (env : environment)
    (reason : string) (duration : option Float.float) (total_tokens : option pyint)
    (st : state) :
  notify_mode config = "smtp" ->
  smtp_host config = "" \/ smtp_from config = "" \/ smtp_to config = "" ->
  _alert config env reason duration total_tokens st =
    (Ok tt,
     {| _start_times := _start_times st;
        trace := trace st ++ [LogAlert reason; LogSmtpNotConfigured] |}).
Proof.
  intros Hmode Hmissing. unfold _alert. rewrite Hmode. cbv zeta.
  simpl String.eqb. unfold _smtp_configured.
  assert (Hconf : nonempty (smtp_host config) && nonempty (smtp_from config)
                  && nonempty (smtp_to config) = false).
  { unfold nonempty. destruct Hmissing as [-> | [-> | ->]]; simpl.
    - reflexivity.
    - apply andb_false_intro1, andb_false_intro2. reflexivity.
    - apply andb_false_intro2. reflexivity. }
  rewrite Hconf. unfold bind, emit, ret. simpl.
  rewrite <- app_assoc. reflexivity.
Qed.

Lemma smtp_unconfigured_skips_witness :
  _alert config_without_sender env_failing "LLM error: boom" None None initial_state =
    (Ok tt,
     {| _start_times := ∅;
        trace := [LogAlert "LLM error: boom"; LogSmtpNotConfigured] |}).
Proof.
  apply (smtp_unconfigured_skips config_without_sender env_failing);
    [reflexivity | right; left; reflexivity].
Defined.

(** ** The SMTP session *)

Lemma smtp_call_run (env : environment) (e : effect) (st : state) :
  smtp_call env e st =
  (match smtp_reply env (trace st ++ [e]) with
   | None => Ok tt
   | Some detail => Raise (SMTPException detail)
   end,
   {| _start_times := _start_times st; trace := trace st ++ [e] |}).
Proof.
  unfold smtp_call, bind, emit, get_trace. simpl.
  destruct (smtp_reply env (trace st ++ [e])); reflexivity.
Qed.

(** The body of the [with] block is the sequence of its steps. *)
Lemma session_as_calls (config : AlertConfig) (env : environment)
    (subject body : string) (st : state) :
  bind (when (smtp_use_tls config) (smtp_call env SmtpStartTls))
    (fun _ =>
       bind (when (nonempty (smtp_username config) && nonempty (smtp_password config))
               (smtp_call env (SmtpLogin (smtp_username config) (smtp_password config))))
         (fun _ =>
            smtp_call env
              (SmtpSendMessage subject (smtp_from config) (smtp_to config) body))) st =
  smtp_calls env (smtp_steps config subject body) st.
Proof.
  unfold smtp_steps.
  destruct (smtp_use_tls config),
    (nonempty (smtp_username config) && nonempty (smtp_password config));
    simpl; unfold bind, ret;
    repeat (rewrite smtp_call_run; simpl;
            destruct (smtp_reply env _); simpl; try reflexivity).
Qed.

(** A sequence of session calls attempts its steps in order and stops
    after the first one that the world answers with a failure. *)
Lemma smtp_calls_run (env : environment) (steps : list effect) :
  forall st,
    exists attempted,
      attempted `prefix_of` steps /\
      snd (smtp_calls env steps st) =
        {| _start_times := _start_times st; trace := trace st ++ attempted |} /\
      ((fst (smtp_calls env steps st) = Ok tt /\ attempted = steps) \/
       exists before e detail,
         attempted = before ++ [e] /\
         smtp_reply env (trace st ++ before ++ [e]) = Some detail /\
         fst (smtp_calls env steps st) = Raise (SMTPException detail)).
Proof.
  induction steps as [|e steps IH]; intros st.
  - exists []. split; [apply prefix_nil|]. split.
    + simpl. rewrite app_nil_r. destruct st; reflexivity.
    + left. split; reflexivity.
  - simpl. unfold bind. rewrite smtp_call_run.
    destruct (smtp_reply env (trace st ++ [e])) as [detail|] eqn:Hreply.
    + exists [e]. split; [apply prefix_cons, prefix_nil|]. split; [reflexivity|].
      right. exists [], e, detail. split; [reflexivity|]. split; [exact Hreply | reflexivity].
    + destruct (IH {| _start_times := _start_times st; trace := trace st ++ [e] |})
        as (attempted & Hprefix & Hstate & Houtcome).
      exists (e :: attempted). split; [apply prefix_cons; exact Hprefix|]. split.
      * rewrite Hstate. simpl. rewrite <- app_assoc. reflexivity.
      * destruct Houtcome as [[Hok ->] | (before & e' & detail & -> & Hreply' & Hraise)].
        -- left. split; [exact Hok | reflexivity].
        -- right. exists (e :: before), e', detail. split; [reflexivity|]. split.
           ++ simpl in Hreply'. rewrite <- app_assoc in Hreply'. exact Hreply'.
           ++ exact Hraise.
Qed.

Lemma headers_accepted_no_error (env : environment) (config : AlertConfig)
    (subject : string) :
  headers_accepted env config subject = true ->
  header_error env config subject = None.
Proof.
  unfold headers_accepted, address_accepted, header_error, address_header_error.
  destruct (multiline subject); [discriminate|].
  destruct (multiline (smtp_from config)); [discriminate|].
  destruct (address_error env (smtp_from config)); [discriminate|].
  destruct (multiline (smtp_to config)); [discriminate|].
  destruct (address_error env (smtp_to config)); [discriminate|].
  reflexivity.
Qed.

(** [_send_email], step by step: the headers, the connection, the calls of
    the session, the closing QUIT. *)
Lemma send_email_run (config : AlertConfig) (env : environment)
    (subject body : string) (st : state) :
  _send_email config env subject body st =
  match header_error env config subject with
  | Some e => (Raise e, st)
  | None =>
    let connect := SmtpConnect (smtp_host config) (smtp_port config) in
    let connected :=
      {| _start_times := _start_times st; trace := trace st ++ [connect] |} in
    match smtp_reply env (trace st ++ [connect]) with
    | Some detail => (Raise (SMTPException detail), connected)
    | None =>
        let session := smtp_calls env (smtp_steps config subject body) connected in
        (match smtp_reply env (trace (snd session) ++ [SmtpQuit]) with
         | Some detail => Raise (SMTPException detail)
         | None => fst session
         end,
         {| _start_times := _start_times (snd session);
            trace := trace (snd session) ++ [SmtpQuit] |})
    end
  end.
Proof.
  unfold _send_email, header_error, address_header_error, set_header,
    set_address_header.
  destruct (multiline subject); [reflexivity|].
  destruct (multiline (smtp_from config)); [reflexivity|].
  destruct (address_error env (smtp_from config)); [reflexivity|].
  destruct (multiline (smtp_to config)); [reflexivity|].
  destruct (address_error env (smtp_to config)); [reflexivity|].
  cbv zeta.
  unfold lift, bind at 1 2 3. unfold with_smtp, bind at 1.
  rewrite smtp_call_run.
  destruct (smtp_reply env _); [reflexivity|].
  unfold finally. rewrite session_as_calls.
  destruct (smtp_calls env _ _) as [r s]. rewrite smtp_call_run. simpl.
  destruct (smtp_reply env (trace s ++ [SmtpQuit])); reflexivity.
Qed.

Lemma send_email_success (config : AlertConfig) (env : environment)
    (subject body : string) (st : state) :
  headers_accepted env config subject = true ->
  (forall history, smtp_reply env history = None) ->
  _send_email config env subject body st =
    (Ok tt,
     {| _start_times := _start_times st;
        trace :=
          trace st ++
          [SmtpConnect (smtp_host config) (smtp_port config)] ++
          (if smtp_use_tls config then [SmtpStartTls] else []) ++
          (if nonempty (smtp_username config) && nonempty (smtp_password config)
           then [SmtpLogin (smtp_username config) (smtp_password config)] else []) ++
          [SmtpSendMessage subject (smtp_from config) (smtp_to config) body;
           SmtpQuit] |}).
Proof.
  intros Hheaders Hok. rewrite send_email_run, (headers_accepted_no_error _ _ _ Hheaders). cbv zeta. rewrite !Hok.
  destruct (smtp_calls_run env (smtp_steps config subject body)
              {| _start_times := _start_times st;
                 trace := trace st ++ [SmtpConnect (smtp_host config) (smtp_port config)] |})
    as (attempted & _ & Hstate & [[Hfst ->] | (before & e & detail & _ & Hreply & _)]).
  - rewrite Hfst, Hstate. simpl. unfold smtp_steps.
    rewrite <- !app_assoc. simpl. reflexivity.
  - rewrite Hok in Hreply. discriminate.
Qed.

(** X3.  When the header values are accepted and every call into
    [smtplib] succeeds, [_send_email] returns normally after this session,
    in this order: connect to the configured host and port; upgrade to TLS
    if [smtp_use_tls]; log in if both the user name and the password are
    non-empty; send one message with the subject, sender, recipient and
    body; quit. *)
Theorem smtp_session_on_success (config : AlertConfig) (env : environment)
    (subject body : string) (st : state) :
  headers_accepted env config subject = true ->
  (forall history, smtp_reply env history = None) ->
  _send_email config env subject body st =
    (Ok tt,
     {| _start_times := _start_times st;
        trace :=
          trace st ++
          [SmtpConnect (smtp_host config) (smtp_port config)] ++
          (if smtp_use_tls config then [SmtpStartTls] else []) ++
          (if nonempty (smtp_username config) && nonempty (smtp_password config)
           then [SmtpLogin (smtp_username config) (smtp_password config)] else []) ++
          [SmtpSendMessage subject (smtp_from config) (smtp_to config) body;
           SmtpQuit] |}).
Proof. apply send_email_success. Qed.

Lemma smtp_session_on_success_witness :
  _send_email config_with_login env_working "subject" "body" initial_state =
    (Ok tt,
     {| _start_times := ∅;
        trace :=
          [SmtpConnect "mail.example" 587; SmtpStartTls; SmtpLogin "user" "secret";
           SmtpSendMessage "subject" "alerts@example" "ops@example" "body";
           SmtpQuit] |}) /\
  _send_email (config_for "smtp" "") env_working "subject" "body" initial_state =
    (Ok tt,
     {| _start_times := ∅;
        trace :=
          [SmtpConnect "mail.example" 587; SmtpStartTls;
           SmtpSendMessage "subject" "alerts@example" "ops@example" "body";
           SmtpQuit] |}).
Proof.
  split.
  - apply (smtp_session_on_success config_with_login env_working); reflexivity.
  - apply (smtp_session_on_success (config_for "smtp" "") env_working); reflexivity.
Defined.



(** X5.  With TLS configured and accepted header values, a mail server
    that accepts the connection and refuses the TLS upgrade gets neither
    the credentials nor the message: the upgrade is the last call before
    QUIT, and a failure is raised, that of QUIT when QUIT is not
    acknowledged and that of the upgrade otherwise. *)
Theorem smtp_no_login_without_tls (config : AlertConfig) (env : environment)
    (subject body : string) (st : state) (detail : string) :
  let connect := SmtpConnect (smtp_host config) (smtp_port config) in
  headers_accepted env config subject = true ->
  smtp_use_tls config = true ->
  smtp_reply env (trace st ++ [connect]) = None ->
  smtp_reply env (trace st ++ [connect; SmtpStartTls]) = Some detail ->
  _send_email config env subject body st =
    (Raise (SMTPException
              match smtp_reply env (trace st ++ [connect; SmtpStartTls; SmtpQuit]) with
              | Some quit_detail => quit_detail
              | None => detail
              end),
     {| _start_times := _start_times st;
        trace := trace st ++ [connect; SmtpStartTls; SmtpQuit] |}).
Proof.
  intros connect Hheaders Htls Hconnect Hrefused. subst connect.
  rewrite send_email_run, (headers_accepted_no_error _ _ _ Hheaders). cbv zeta. rewrite Hconnect.
  unfold smtp_steps. rewrite Htls. simpl. unfold bind. rewrite smtp_call_run.
  simpl. rewrite <- app_assoc. simpl. rewrite Hrefused. simpl.
  rewrite <- !app_assoc. simpl.
  destruct (smtp_reply env (trace st ++ [_; _; SmtpQuit])); reflexivity.
Qed.

Lemma smtp_no_login_without_tls_witness :
  _send_email config_with_login env_no_tls "subject" "body" initial_state =
    (Raise (SMTPException "STARTTLS not supported"),
     {| _start_times := ∅;
        trace := [SmtpConnect "mail.example" 587; SmtpStartTls; SmtpQuit] |}).
Proof.
  apply (smtp_no_login_without_tls config_with_login env_no_tls "subject" "body"
           initial_state "STARTTLS not supported"); reflexivity.
Defined.

(** ** One channel per alert *)

Lemma alert_channel_by_mode (P : effect -> Prop) (config : AlertConfig)
    (env : environment) (reason : string) (duration : option Float.float)
    (total_tokens : option pyint) :
  P (LogAlert reason) -> P LogSmtpNotConfigured -> P LogWebhookNotConfigured ->
  (forall exc, P (LogWebhookFailed exc)) ->
  (notify_mode config = "webhook" -> forall url t b timeout, P (HttpPost url t b timeout)) ->
  (notify_mode config = "smtp" -> forall e, is_smtp_effect e = true -> P e) ->
  channel_only P (_alert config env reason duration total_tokens).
Proof.
  intros Halert Hnosmtp Hnourl Hfailed Hhttp Hsmtp. unfold _alert. cbv zeta.
  apply channel_bind; [apply channel_emit; exact Halert|]. intros _.
  destruct (String.eqb_spec (notify_mode config) "webhook") as [Hmode|_].
  - unfold _send_webhook.
    destruct (negb (nonempty (webhook_url config))); [apply channel_emit; exact Hnourl|].
    apply channel_try_except_request; [|intros exc; apply channel_emit, Hfailed].
    apply channel_post_and_check, Hhttp. exact Hmode.
  - destruct (String.eqb_spec (notify_mode config) "smtp") as [Hmode|_];
      [|apply channel_ret].
    specialize (Hsmtp Hmode).
    apply channel_bind.
    { unfold _smtp_configured. destruct (_ && _); [apply channel_ret|].
      apply channel_bind; [apply channel_emit; exact Hnosmtp|].
      intros _. apply channel_ret. }
    intros []; simpl; [|apply channel_ret].
    apply channel_send_email_calls.
    + intros e He _. apply Hsmtp. exact He.
    + apply Hsmtp. reflexivity.
Qed.

(** X6.  No dispatch uses two channels: outside webhook mode it makes no
    HTTP request, outside SMTP mode it makes no SMTP call, so the effects
    of one [_alert] call never hold both, in any world and whether the call
    returns or raises. *)
Theorem alert_single_channel (config : AlertConfig) (env : environment)
    (reason : string) (duration : option Float.float) (total_tokens : option pyint)
    (st : state) :
  let delta :=
    new_effects st (snd (_alert config env reason duration total_tokens st)) in
  (notify_mode config <> "webhook" -> Forall (fun e => is_http_effect e = false) delta) /\
  (notify_mode config <> "smtp" -> Forall (fun e => is_smtp_effect e = false) delta) /\
  (Forall (fun e => is_http_effect e = false) delta \/
   Forall (fun e => is_smtp_effect e = false) delta).
Proof.
  cbv zeta.
  assert (Hhttp : notify_mode config <> "webhook" ->
            Forall (fun e => is_http_effect e = false)
              (new_effects st (snd (_alert config env reason duration total_tokens st)))).
  { intros Hmode.
    destruct (alert_channel_by_mode (fun e => is_http_effect e = false) config env
                reason duration total_tokens) with (st := st)
      as [_ (delta & Hdelta & Hall)]; try reflexivity.
    - intros Hwebhook. contradiction.
    - intros _ e He. destruct e; try discriminate; reflexivity.
    - rewrite (new_effects_app _ _ _ Hdelta). exact Hall. }
  assert (Hsmtp : notify_mode config <> "smtp" ->
            Forall (fun e => is_smtp_effect e = false)
              (new_effects st (snd (_alert config env reason duration total_tokens st)))).
  { intros Hmode.
    destruct (alert_channel_by_mode (fun e => is_smtp_effect e = false) config env
                reason duration total_tokens) with (st := st)
      as [_ (delta & Hdelta & Hall)]; try reflexivity.
    - intros Hsmtp. contradiction.
    - rewrite (new_effects_app _ _ _ Hdelta). exact Hall. }
  split; [exact Hhttp|]. split; [exact Hsmtp|].
  destruct (String.eqb_spec (notify_mode config) "webhook") as [Hmode|Hmode].
  - right. apply Hsmtp. rewrite Hmode. discriminate.
  - left. apply Hhttp. exact Hmode.
Qed.

(** X7.  Every dispatch, in every mode and world and whether it returns or
    raises, leaves the timer map untouched and writes exactly one alert
    line, which comes before any call to a channel. *)
Theorem alert_logged_first (config : AlertConfig) (env : environment)
    (reason : string) (duration : option Float.float) (total_tokens : option pyint)
    (st : state) :
  exists delta,
    snd (_alert config env reason duration total_tokens st) =
      {| _start_times := _start_times st;
         trace := trace st ++ LogAlert reason :: delta |} /\
    alerts_of delta = [].
Proof.
  destruct (alert_effects config env reason duration total_tokens st)
    as (delta & Hstate & Hdelta).
  exists delta. split; [exact Hstate|].
  eapply alerts_of_channel. exact Hdelta.
Qed.

(** ** The timer map under events *)

(** X8.  Whatever a lifecycle call does otherwise, and whether it returns
    or raises, its effect on the timer map is fixed by the event: a start
    with a truthy run identifier stores the current reading under
    [str(run_id)], replacing an earlier one; a start without one changes
    nothing; a success or error event removes the entry of its key and no
    other. *)
Theorem timer_transition (config : AlertConfig) (env : environment)
    (ev : event) (now : Float.float) (st : state) :
  _start_times (snd (handle config env ev now st)) =
  match ev with
  | LlmStart (Some run_id) =>
      if rid_truthy run_id then <[rid_str run_id := now]> (_start_times st)
      else _start_times st
  | LlmStart None => _start_times st
  | LlmEnd _ kw | LlmError _ kw | ChainError _ kw =>
      delete (run_id_key kw) (_start_times st)
  end.
Proof. rewrite handle_times. destruct ev as [[run_id|]| | |]; reflexivity. Qed.

(** X9.  A start followed by a take for the same run identifier returns
    the float difference of the two readings and leaves the timer map as
    it was without that key; a second start for the same identifier before
    the take replaces the first reading. *)
Theorem start_then_take (run_id : run_id_value) (t1 t2 now : Float.float)
    (st : state) :
  rid_truthy run_id = true ->
  let started := snd (on_llm_start (Some run_id) t1 st) in
  let restarted := snd (on_llm_start (Some run_id) t2 started) in
  _pop_duration (rid_str run_id) now started =
    (Ok (Some (SFsub 53 1024 now t1)),
     {| _start_times := delete (rid_str run_id) (_start_times st);
        trace := trace st |}) /\
  restarted = snd (on_llm_start (Some run_id) t2 st) /\
  _pop_duration (rid_str run_id) now restarted =
    (Ok (Some (SFsub 53 1024 now t2)),
     {| _start_times := delete (rid_str run_id) (_start_times st);
        trace := trace st |}).
Proof.
  intros Htruthy started restarted. subst restarted started.
  unfold on_llm_start. rewrite Htruthy.
  unfold bind, get_times, put_times. simpl.
  rewrite !pop_duration_run. unfold elapsed, popped. simpl.
  rewrite !lookup_insert_eq, insert_insert_eq, !delete_insert_eq.
  repeat split; reflexivity.
Qed.

Lemma start_then_take_witness :
  _pop_duration "r1" (Float.of_ratio 51 10)
    (snd (on_llm_start run_r1 (Float.of_ratio 1 10) initial_state)) =
    (Ok (Some (Float.of_Z 5)), {| _start_times := delete "r1" ∅; trace := [] |}) /\
  _pop_duration "r1" (Float.of_ratio 51 10)
    (snd (on_llm_start run_r1 (Float.of_Z 2)
            (snd (on_llm_start run_r1 (Float.of_ratio 1 10) initial_state)))) =
    (Ok (Some (SFsub 53 1024 (Float.of_ratio 51 10) (Float.of_Z 2))),
     {| _start_times := delete "r1" ∅; trace := [] |}).
Proof.
  destruct (start_then_take {| rid_str := "r1"; rid_truthy := true |}
              (Float.of_ratio 1 10) (Float.of_Z 2) (Float.of_ratio 51 10)
              initial_state eq_refl) as (Hfirst & _ & Hsecond).
  split; [exact Hfirst | exact Hsecond].
Defined.

(** X10.  A pending entry is not affected by the events of other runs:
    along any sequence of events none of which stores or takes under its
    key, the entry keeps its start reading, so the run's elapsed time is
    still measured from its own start. *)
Theorem pending_entry_survives (config : AlertConfig) (env : environment)
    (key : string) (start : Float.float) (events : list (event * Float.float))
    (st : state) :
  _start_times st !! key = Some start ->
  forallb (fun en => negb (touches key (fst en))) events = true ->
  _start_times (run config env events st) !! key = Some start /\
  forall now, elapsed (run config env events st) key now = Some (SFsub 53 1024 now start).
Proof.
  intros Hkey Hother.
  assert (Hkept : _start_times (run config env events st) !! key = Some start).
  { revert st Hkey Hother.
    induction events as [|[ev now] events IH]; intros st Hkey Hother; [exact Hkey|].
    simpl in Hother. apply andb_prop in Hother as [Hev Hrest].
    simpl. apply IH; [|exact Hrest].
    rewrite handle_times. apply negb_true_iff in Hev.
    destruct ev as [[run_id|] | response kw | error kw | error kw]; simpl in *;
      try exact Hkey;
      try (rewrite lookup_delete_ne; [exact Hkey|];
           intros Heq; rewrite Heq, String.eqb_refl in Hev; discriminate).
    destruct (rid_truthy run_id); [|exact Hkey]. simpl in Hev.
    rewrite lookup_insert_ne; [exact Hkey|].
    intros Heq. rewrite Heq, String.eqb_refl in Hev. discriminate. }
  split; [exact Hkept|]. intros now. unfold elapsed. rewrite Hkept. reflexivity.
Qed.

Lemma pending_entry_survives_witness :
  elapsed
    (run (config_for "smtp" "") env_failing
         [(LlmStart run_named_None, Float.of_Z 1);
          (LlmError "boom" run_named_None, Float.of_Z 2);
          (LlmEnd (response_with_total 100) None, Float.of_Z 3)]
         st_r1)
    "r1" (Float.of_Z 4) = Some (SFsub 53 1024 (Float.of_Z 4) (Float.of_Z 0)).
Proof.
  apply (pending_entry_survives (config_for "smtp" "") env_failing "r1" (Float.of_Z 0)
           [(LlmStart run_named_None, Float.of_Z 1);
            (LlmError "boom" run_named_None, Float.of_Z 2);
            (LlmEnd (response_with_total 100) None, Float.of_Z 3)] st_r1);
    reflexivity.
Defined.

(** X11.  The timer map grows only through start events: after any
    sequence of events its size is at most its initial size plus the number
    of start events that carried a truthy run identifier. *)
Theorem timer_size_bounded (config : AlertConfig) (env : environment)
    (events : list (event * Float.float)) (st : state) :
  (size (_start_times (run config env events st)) <=
   size (_start_times st) + recording_starts events)%nat.
Proof.
  revert st. induction events as [|[ev now] events IH]; intros st; [simpl; lia|].
  specialize (IH (snd (handle config env ev now st))).
  rewrite handle_times in IH.
  change (run config env ((ev, now) :: events) st)
    with (run config env events (snd (handle config env ev now st))).
  set (final := size (_start_times (run config env events
                                        (snd (handle config env ev now st))))) in *.
  clearbody final.
  assert (Hdelete : forall k, (size (delete k (_start_times st)) <=
                               size (_start_times st))%nat).
  { intros k. apply map_subseteq_size, delete_subseteq. }
  destruct ev as [[run_id|] | response kw | error kw | error kw];
    cbn [recording_starts next_times] in *;
    try (specialize (Hdelete (run_id_key kw)); lia); try lia.
  destruct (rid_truthy run_id); [|lia].
  rewrite map_size_insert in IH.
  destruct (_start_times st !! rid_str run_id); simpl in IH; lia.
Qed.

(** ** Success events *)

(** X12.  Every payload that reaches a channel during a success event is
    built from the reason of one of the two threshold alerts together with
    the run's elapsed time and the extracted token count: both alerts
    carry both metrics, whichever threshold was crossed, and whether or not
    delivery raises. *)
Theorem success_payloads_carry_metrics (config : AlertConfig) (env : environment)
    (response : pyval) (kw : kwargs) (now : Float.float) (st : state)
    (total_tokens : option pyint) :
  _extract_total_tokens response = Ok total_tokens ->
  let duration := elapsed st (run_id_key kw) now in
  Forall
    (fun p =>
       p = _build_payload "Latency threshold exceeded" duration total_tokens \/
       p = _build_payload "Token threshold exceeded" duration total_tokens)
    (sent_payloads
       (new_effects st (snd (on_llm_end config env response kw now st)))).
Proof.
  intros Hextract duration.
  rewrite on_llm_end_run, Hextract. cbv zeta. fold duration.
  set (st1 := popped (run_id_key kw) st).
  assert (Hstep : forall (b : bool) reason (s : state),
             exists delta,
               trace (snd (when b (_alert config env reason duration total_tokens) s)) =
                 trace s ++ delta /\
               Forall (fun p => p = _build_payload reason duration total_tokens)
                      (sent_payloads delta)).
  { intros [] reason s; simpl.
    - destruct (alert_effects config env reason duration total_tokens s)
        as (delta & -> & Hdelta).
      exists (LogAlert reason :: delta). split; [reflexivity|].
      change (sent_payloads (LogAlert reason :: delta)) with (sent_payloads delta).
      apply sent_payloads_channel. exact Hdelta.
    - exists []. split; [symmetry; apply app_nil_r | constructor]. }
  unfold bind.
  destruct (Hstep (exceeds_latency config duration) "Latency threshold exceeded" st1)
    as (d1 & Ht1 & Hp1).
  destruct (when (exceeds_latency config duration) _ st1) as [[[]|e] st2]; simpl in Ht1.
  - destruct (Hstep (exceeds_tokens config total_tokens) "Token threshold exceeded" st2)
      as (d2 & Ht2 & Hp2).
    rewrite (new_effects_app _ _ (d1 ++ d2))
      by (rewrite Ht2, Ht1; symmetry; apply app_assoc).
    unfold sent_payloads in *. rewrite omap_app. apply Forall_app. split.
    + eapply Forall_impl; [exact Hp1|]. intros p Hp. left. exact Hp.
    + eapply Forall_impl; [exact Hp2|]. intros p Hp. right. exact Hp.
  - simpl. rewrite (new_effects_app _ _ d1) by exact Ht1.
    eapply Forall_impl; [exact Hp1|]. intros p Hp. left. exact Hp.
Qed.

Lemma success_payloads_carry_metrics_witness :
  Forall
    (fun p =>
       p = _build_payload "Latency threshold exceeded"
                          (Some (SFsub 53 1024 (Float.of_ratio 5 2) (Float.of_Z 0)))
                          (Some (IntV 10)) \/
       p = _build_payload "Token threshold exceeded"
                          (Some (SFsub 53 1024 (Float.of_ratio 5 2) (Float.of_Z 0)))
                          (Some (IntV 10)))
    (sent_payloads
       (new_effects st_r1
          (snd (on_llm_end (config_for "webhook" "http://x") env_working
                           (response_with_total 10) run_r1 (Float.of_ratio 5 2) st_r1)))).
Proof.
  apply (success_payloads_carry_metrics (config_for "webhook" "http://x") env_working
           (response_with_total 10) run_r1 (Float.of_ratio 5 2) st_r1 (Some (IntV 10))).
  reflexivity.
Defined.

(** X13.  A success event that crosses neither threshold is silent in
    every mode: when the elapsed time, if there is one, is not at least
    [latency_seconds], and the token count, if there is one, is below
    [token_threshold], the call takes the run's timer entry, returns
    normally, and adds nothing to the log and nothing to any channel. *)
Theorem success_below_thresholds_is_silent (config : AlertConfig)
    (env : environment) (response : pyval) (kw : kwargs) (now : Float.float)
    (st : state) (total_tokens : option pyint) :
  _extract_total_tokens response = Ok total_tokens ->
  (forall start,
      _start_times st !! run_id_key kw = Some start ->
      SFleb (latency_seconds config) (SFsub 53 1024 now start) = false) ->
  (forall total,
      total_tokens = Some total -> int_value total < token_threshold config) ->
  on_llm_end config env response kw now st =
    (Ok tt,
     {| _start_times := delete (run_id_key kw) (_start_times st);
        trace := trace st |}).
Proof.
  intros Hextract Hlatency Htokens.
  rewrite on_llm_end_run, Hextract. cbv zeta.
  assert (Hquick : exceeds_latency config (elapsed st (run_id_key kw) now) = false).
  { unfold exceeds_latency, elapsed.
    destruct (_start_times st !! run_id_key kw) as [start|]; [|reflexivity].
    apply Hlatency. reflexivity. }
  assert (Hfew : exceeds_tokens config total_tokens = false).
  { unfold exceeds_tokens. destruct total_tokens as [total|]; [|reflexivity].
    apply Z.leb_gt. apply Htokens. reflexivity. }
  rewrite Hquick, Hfew. reflexivity.
Qed.

Lemma success_below_thresholds_is_silent_witness :
  on_llm_end (config_for "smtp" "") env_failing (response_with_total 10) run_r1
             (Float.of_ratio 1 2) st_r1 =
    (Ok tt, {| _start_times := delete "r1" (_start_times st_r1); trace := [] |}).
Proof.
  apply (success_below_thresholds_is_silent (config_for "smtp" "") env_failing
           (response_with_total 10) run_r1 (Float.of_ratio 1 2) st_r1 (Some (IntV 10))).
  - reflexivity.
  - intros start [= <-]. reflexivity.
  - intros total [= <-]. reflexivity.
Defined.

(** ** Early return of the generations scan *)

Lemma scan_generations_stops (generations rest : list pyval) :
  forall groups total,
    mapM iterate generations = Some groups ->
    first_total groups = Some total ->
    scan_generations (generations ++ rest) = Ok (Some total).
Proof.
  induction generations as [|g generations IH]; intros groups total Hshape Hhit.
  - apply mapM_Some in Hshape. inversion Hshape; subst. discriminate.
  - apply mapM_Some in Hshape. inversion Hshape as [|? group ? groups' Hg Hrest]; subst.
    rewrite first_total_cons in Hhit. simpl. rewrite Hg.
    destruct (scan_group group); [congruence|].
    eapply IH; [apply mapM_Some; exact Hrest | exact Hhit].
Qed.

(** X14.  The scan of the generations returns at the first integer total:
    when the output metadata yields nothing and an initial part of the
    generations, made of sequences, holds a total, that total is returned
    and what follows is never looked at, not even when it would make the
    loop raise. *)
Theorem scan_stops_at_first_hit (response : pyval) (generations rest : list pyval)
    (groups : list (list pyval)) (total : pyint) :
  metadata_total first_truthy response = None ->
  getattr response "generations" PyNone = PyList (generations ++ rest) ->
  mapM iterate generations = Some groups ->
  first_total groups = Some total ->
  _extract_total_tokens response = Ok (Some total).
Proof.
  intros Hmeta Hgens Hshape Hhit. unfold _extract_total_tokens.
  rewrite llm_output_total_first_truthy, Hmeta. cbv zeta. rewrite Hgens.
  assert (Hnonempty : generations <> []).
  { intros ->. apply mapM_Some in Hshape. inversion Hshape; subst. discriminate. }
  unfold py_or.
  destruct generations as [|g generations]; [contradiction|].
  cbn [truthy app length Nat.eqb negb iterate].
  eapply (scan_generations_stops (g :: generations)); eassumption.
Qed.

Lemma scan_stops_at_first_hit_witness :
  _extract_total_tokens
    (PyObject [("generations",
                PyList [PyList [PyObject []; generation_with_total 3]; PyInt 5])]) =
  Ok (Some (IntV 3)).
Proof.
  apply (scan_stops_at_first_hit _ [PyList [PyObject []; generation_with_total 3]]
           [PyInt 5] [[PyObject []; generation_with_total 3]] (IntV 3));
    reflexivity.
Defined.

(** ** Delivery by email and the handler boundary *)

Lemma smtp_configured_true (config : AlertConfig) :
  smtp_host config <> "" -> smtp_from config <> "" -> smtp_to config <> "" ->
  nonempty (smtp_host config) && nonempty (smtp_from config)
  && nonempty (smtp_to config) = true.
Proof.
  intros Hhost Hfrom Hto. unfold nonempty.
  apply String.eqb_neq in Hhost, Hfrom, Hto. rewrite Hhost, Hfrom, Hto. reflexivity.
Qed.

(** A dispatch in SMTP mode with host, sender and recipient set is the
    alert line followed by [_send_email] on the payload. *)
Lemma alert_smtp_run (config : AlertConfig) (env : environment)
    (reason : string) (duration : option Float.float) (total_tokens : option pyint)
    (st : state) :
  notify_mode config = "smtp" ->
  smtp_host config <> "" -> smtp_from config <> "" -> smtp_to config <> "" ->
  let p := _build_payload reason duration total_tokens in
  _alert config env reason duration total_tokens st =
  _send_email config env (title p) (body p)
    {| _start_times := _start_times st; trace := trace st ++ [LogAlert reason] |}.
Proof.
  intros Hmode Hhost Hfrom Hto p. unfold _alert. rewrite Hmode. cbv zeta.
  fold p. clearbody p. simpl String.eqb. unfold _smtp_configured.
  rewrite smtp_configured_true by assumption.
  reflexivity.
Qed.

(** X15.  In SMTP mode with host, sender and recipient set, accepted
    header values, and every call into [smtplib] succeeding, a dispatch
    returns normally after writing the alert line and sending exactly one
    message whose subject is the payload's title and whose text is the
    payload's body, from the configured sender to the configured
    recipient. *)
Theorem smtp_alert_delivers_payload (config : AlertConfig) (env : environment)
    (reason : string) (duration : option Float.float) (total_tokens : option pyint)
    (st : state) :
  notify_mode config = "smtp" ->
  smtp_host config <> "" -> smtp_from config <> "" -> smtp_to config <> "" ->
  headers_accepted env config ("LangSmith alert: " +:+ reason) = true ->
  (forall history, smtp_reply env history = None) ->
  let p := _build_payload reason duration total_tokens in
  _alert config env reason duration total_tokens st =
    (Ok tt,
     {| _start_times := _start_times st;
        trace :=
          trace st ++
          [LogAlert reason; SmtpConnect (smtp_host config) (smtp_port config)] ++
          (if smtp_use_tls config then [SmtpStartTls] else []) ++
          (if nonempty (smtp_username config) && nonempty (smtp_password config)
           then [SmtpLogin (smtp_username config) (smtp_password config)] else []) ++
          [SmtpSendMessage (title p) (smtp_from config) (smtp_to config) (body p);
           SmtpQuit] |}).
Proof.
  intros Hmode Hhost Hfrom Hto Hheaders Hok p. subst p.
  rewrite alert_smtp_run by assumption. cbv zeta.
  rewrite send_email_success; [| exact Hheaders | exact Hok].
  simpl. rewrite <- !app_assoc. reflexivity.
Qed.

Lemma smtp_alert_delivers_payload_witness :
  _alert config_with_login env_working "LLM error: boom" (Some (Float.of_Z 3)) None
         initial_state =
    (Ok tt,
     {| _start_times := ∅;
        trace :=
          [LogAlert "LLM error: boom"; SmtpConnect "mail.example" 587; SmtpStartTls;
           SmtpLogin "user" "secret";
           SmtpSendMessage "LangSmith alert: LLM error: boom" "alerts@example"
                           "ops@example"
                           ("Reason: LLM error: boom" +:+ newline +:+ "Latency: 3.00s");
           SmtpQuit] |}).
Proof.
  apply (smtp_alert_delivers_payload config_with_login env_working "LLM error: boom"
           (Some (Float.of_Z 3)) None initial_state); try discriminate; reflexivity.
Defined.

(** X16.  In SMTP mode with host, sender and recipient set and accepted
    header values, a mail server that cannot be reached makes every
    dispatch raise the connection failure to its caller: the failure is
    not caught inside [_alert] or [_send_email]. *)
Theorem smtp_unreachable_dispatch_raises (config : AlertConfig) (env : environment)
    (reason : string) (duration : option Float.float) (total_tokens : option pyint)
    (st : state) (detail : string) :
  notify_mode config = "smtp" ->
  smtp_host config <> "" -> smtp_from config <> "" -> smtp_to config <> "" ->
  headers_accepted env config ("LangSmith alert: " +:+ reason) = true ->
  smtp_reply env
    (trace st ++ [LogAlert reason; SmtpConnect (smtp_host config) (smtp_port config)]) =
    Some detail ->
  _alert config env reason duration total_tokens st =
    (Raise (SMTPException detail),
     {| _start_times := _start_times st;
        trace :=
          trace st ++
          [LogAlert reason; SmtpConnect (smtp_host config) (smtp_port config)] |}).
Proof.
  intros Hmode Hhost Hfrom Hto Hheaders Hdown.
  rewrite alert_smtp_run by assumption. cbv zeta.
  rewrite send_email_run.
  change (title (_build_payload reason duration total_tokens))
    with ("LangSmith alert: " +:+ reason).
  rewrite (headers_accepted_no_error _ _ _ Hheaders). cbv zeta. simpl.
  rewrite <- !app_assoc. simpl. rewrite Hdown. reflexivity.
Qed.

Lemma smtp_unreachable_dispatch_raises_witness :
  _alert config_with_login env_failing "LLM error: boom" None None initial_state =
    (Raise (SMTPException "connection refused"),
     {| _start_times := ∅;
        trace := [LogAlert "LLM error: boom"; SmtpConnect "mail.example" 587] |}).
Proof.
  apply (smtp_unreachable_dispatch_raises config_with_login env_failing
           "LLM error: boom" None None initial_state "connection refused");
    try discriminate; reflexivity.
Defined.





(** ** Responses that offer no count *)

(** X19.  For every response whose generations are absent, falsy or a
    sequence of sequences, and which offers no integer total in its
    output metadata or in any generation, the extractor returns none
    without raising.  This covers the empty response, a [token_usage]
    whose [total_tokens] is not an integer, an empty generations sequence,
    and generations without usage metadata anywhere. *)
Theorem extract_none_when_unrecoverable :
  (forall response groups,
      nested_generations response = Some groups ->
      metadata_totals response = [] ->
      omap generation_total (concat groups) = [] ->
      _extract_total_tokens response = Ok None) /\
  (forall response,
      getattr response "llm_output" PyNone = PyNone ->
      getattr response "generations" PyNone = PyNone ->
      _extract_total_tokens response = Ok None) /\
  (forall v,
      as_int v = None ->
      _extract_total_tokens
        (PyObject [("llm_output",
                    PyDict [("token_usage", PyDict [("total_tokens", v)])])]) =
      Ok None) /\
  (forall response,
      metadata_totals response = [] ->
      getattr response "generations" PyNone = PyList [] ->
      _extract_total_tokens response = Ok None) /\
  (forall response groups,
      metadata_totals response = [] ->
      nested_generations response = Some groups ->
      Forall no_usage_metadata (concat groups) ->
      _extract_total_tokens response = Ok None).
Proof.
  split; [exact extract_unrecoverable|].
  split; [|split; [|split]].
  - intros response Hmeta Hgens.
    apply (extract_unrecoverable _ []); [| | reflexivity].
    + unfold nested_generations. rewrite Hgens. reflexivity.
    + unfold metadata_totals. rewrite Hmeta. reflexivity.
  - intros v Hv.
    apply (extract_unrecoverable _ []); [reflexivity | | reflexivity].
    unfold metadata_totals. simpl. rewrite Hv. reflexivity.
  - intros response Hmeta Hgens.
    apply (extract_unrecoverable _ []); [| exact Hmeta | reflexivity].
    unfold nested_generations. rewrite Hgens. reflexivity.
  - intros response groups Hmeta Hshape Hnone.
    apply (extract_unrecoverable _ groups); [exact Hshape | exact Hmeta |].
    apply omap_no_usage_metadata. exact Hnone.
Qed.

Lemma extract_none_when_unrecoverable_witness :
  _extract_total_tokens (PyObject []) = Ok None /\
  _extract_total_tokens PyNone = Ok None /\
  _extract_total_tokens
    (PyObject [("llm_output",
                PyDict [("token_usage", PyDict [("total_tokens", PyStr "12")])])]) =
    Ok None /\
  _extract_total_tokens (PyObject [("generations", PyList [])]) = Ok None /\
  _extract_total_tokens response_no_metadata = Ok None.
Proof.
  destruct extract_none_when_unrecoverable
    as (_ & Hblank & Hnonint & Hempty & Hnometa).
  split; [|split; [|split; [|split]]].
  - apply Hblank; reflexivity.
  - apply Hblank; reflexivity.
  - apply Hnonint. reflexivity.
  - apply Hempty; reflexivity.
  - apply (Hnometa response_no_metadata
             [[PyObject [("text", PyStr "hello")];
               PyObject [("message", PyObject [("content", PyStr "hi")])]]]);
      [reflexivity | reflexivity |].
    repeat constructor.
Defined.

(** ** Failures that are not caught *)

(** X20.  In SMTP mode with host, sender and recipient set, a reason that
    makes a subject of more than one line, such as an error description
    with a line break in it, makes the dispatch raise [ValueError] when the
    message is built: after the alert line, and before any connection to
    the mail server. *)
Theorem multiline_subject_raises (config : AlertConfig) (env : environment)
    (reason : string) (duration : option Float.float) (total_tokens : option pyint)
    (st : state) :
  notify_mode config = "smtp" ->
  smtp_host config <> "" -> smtp_from config <> "" -> smtp_to config <> "" ->
  multiline ("LangSmith alert: " +:+ reason) = true ->
  _alert config env reason duration total_tokens st =
    (Raise ValueError,
     {| _start_times := _start_times st; trace := trace st ++ [LogAlert reason] |}).
Proof.
  intros Hmode Hhost Hfrom Hto Hlines.
  rewrite alert_smtp_run by assumption. cbv zeta.
  rewrite send_email_run.
  change (title (_build_payload reason duration total_tokens))
    with ("LangSmith alert: " +:+ reason).
  unfold header_error. rewrite Hlines. reflexivity.
Qed.

Lemma multiline_subject_raises_witness :
  _alert config_with_login env_working ("LLM error: " +:+ two_line_error)
         (Some (Float.of_Z 3)) None initial_state =
    (Raise ValueError,
     {| _start_times := ∅; trace := [LogAlert ("LLM error: " +:+ two_line_error)] |}).
Proof.
  apply (multiline_subject_raises config_with_login env_working
           ("LLM error: " +:+ two_line_error) (Some (Float.of_Z 3)) None initial_state);
    try discriminate; reflexivity.
Defined.

(** An invocation-error event whose description has two lines, in SMTP
    mode: the handler raises [ValueError] after the alert line. *)
Example multiline_error_scenario :
  handle config_with_login env_working (LlmError two_line_error run_r1) (Float.of_Z 3)
         st_r1 =
    (Raise ValueError,
     {| _start_times := ∅; trace := [LogAlert ("LLM error: " +:+ two_line_error)] |}).
Proof. vm_compute. reflexivity. Qed.

(** X21.  In webhook mode with a URL that [requests] can prepare a request
    for, a timeout that is not above zero makes every dispatch raise
    [ValueError]: [requests.post] refuses the timeout before anything is
    sent, and the handler's [except] clause, which names
    [RequestException], does not catch it; no warning is logged. *)
Theorem webhook_timeout_not_positive_raises (config : AlertConfig)
    (env : environment) (reason : string) (duration : option Float.float)
    (total_tokens : option pyint) (st : state) :
  let p := _build_payload reason duration total_tokens in
  let post :=
    HttpPost (webhook_url config) (title p) (body p)
             (webhook_timeout_seconds config) in
  notify_mode config = "webhook" ->
  webhook_url config <> "" ->
  SFleb (webhook_timeout_seconds config) (S754_zero false) = true ->
  (forall detail,
      http_reply env (trace st ++ [LogAlert reason; post]) <> NotSent detail) ->
  _alert config env reason duration total_tokens st =
    (Raise ValueError,
     {| _start_times := _start_times st;
        trace := trace st ++ [LogAlert reason; post] |}).
Proof.
  intros p post Hmode Hurl Htimeout Hprepared. subst post.
  change (Float.leb (webhook_timeout_seconds config) Float.zero = true) in Htimeout.
  unfold _alert. rewrite Hmode. cbv zeta. fold p. clearbody p.
  simpl String.eqb. unfold _send_webhook, nonempty.
  apply String.eqb_neq in Hurl. rewrite Hurl. simpl.
  unfold try_except_request, post_and_check, validate_timeout, bind, emit,
    get_trace, lift. simpl.
  rewrite Htimeout. rewrite <- !app_assoc. simpl.
  destruct (http_reply env _) as
    [status_code error_text | detail | detail | detail];
    [reflexivity | reflexivity | reflexivity
     | exfalso; exact (Hprepared detail eq_refl)].
Qed.

Lemma webhook_timeout_not_positive_raises_witness :
  _alert config_zero_timeout env_working "LLM error: boom" None None initial_state =
    (Raise ValueError,
     {| _start_times := ∅;
        trace :=
          [LogAlert "LLM error: boom";
           HttpPost "http://x" "LangSmith alert: LLM error: boom"
                    "Reason: LLM error: boom" (Float.of_Z 0)] |}).
Proof.
  apply (webhook_timeout_not_positive_raises config_zero_timeout env_working
           "LLM error: boom" None None initial_state);
    [reflexivity | discriminate | reflexivity | discriminate].
Defined.

(** X22.  When every step of the SMTP session succeeds and the server
    does not acknowledge the closing QUIT, [_send_email] raises although
    the message has been sent. *)
Theorem quit_failure_raises_after_delivery (config : AlertConfig)
    (env : environment) (subject body : string) (st : state) (detail : string) :
  headers_accepted env config subject = true ->
  (forall history,
      smtp_reply env history =
      match last history with
      | Some SmtpQuit => Some detail
      | _ => None
      end) ->
  let result := _send_email config env subject body st in
  fst result = Raise (SMTPException detail) /\
  sent_payloads (new_effects st (snd result)) = [{| title := subject; body := body |}] /\
  last (trace (snd result)) = Some SmtpQuit.
Proof.
  intros Hheaders Hworld result. subst result.
  rewrite send_email_run, (headers_accepted_no_error _ _ _ Hheaders). cbv zeta.
  assert (Hquit : forall history, smtp_reply env (history ++ [SmtpQuit]) = Some detail).
  { intros history. rewrite Hworld, last_snoc. reflexivity. }
  assert (Hstep : forall history e,
             e <> SmtpQuit -> smtp_reply env (history ++ [e]) = None).
  { intros history e He. rewrite Hworld, last_snoc.
    destruct e; try reflexivity. contradiction. }
  rewrite Hstep by discriminate. rewrite Hquit. simpl fst.
  split; [reflexivity|]. simpl snd.
  destruct (smtp_calls_run env (smtp_steps config subject body)
              {| _start_times := _start_times st;
                 trace := trace st ++ [SmtpConnect (smtp_host config) (smtp_port config)] |})
    as (attempted & Hprefix & Hstate & [[_ ->] | (before & e & d & -> & Hreply & _)]).
  - rewrite Hstate. simpl. split; [|apply last_snoc].
    rewrite (new_effects_app _ _
               (SmtpConnect (smtp_host config) (smtp_port config) ::
                smtp_steps config subject body ++ [SmtpQuit]))
      by (simpl; rewrite <- !app_assoc; reflexivity).
    unfold smtp_steps, sent_payloads.
    destruct (smtp_use_tls config),
      (nonempty (smtp_username config) && nonempty (smtp_password config));
      reflexivity.
  - exfalso.
    assert (Hsteps : Forall (fun e => e <> SmtpQuit) (smtp_steps config subject body)).
    { unfold smtp_steps.
      destruct (smtp_use_tls config),
        (nonempty (smtp_username config) && nonempty (smtp_password config));
        repeat (constructor; try discriminate). }
    destruct Hprefix as [tail Htail]. rewrite Htail in Hsteps.
    apply Forall_app in Hsteps as [Hsteps _].
    apply Forall_app in Hsteps as [_ He].
    inversion He as [|? ? Hne _]; subst.
    rewrite app_assoc, Hstep in Hreply; [discriminate | exact Hne].
Qed.

Lemma quit_failure_raises_after_delivery_witness :
  fst (_send_email config_with_login env_quit_refused "subject" "body" initial_state) =
    Raise (SMTPException "(500, b'unrecognised command')") /\
  sent_payloads
    (new_effects initial_state
       (snd (_send_email config_with_login env_quit_refused "subject" "body"
                         initial_state))) =
    [{| title := "subject"; body := "body" |}].
Proof.
  destruct (quit_failure_raises_after_delivery config_with_login env_quit_refused
              "subject" "body" initial_state "(500, b'unrecognised command')"
              eq_refl (fun _ => eq_refl)) as (Hraise & Hsent & _).
  split; [exact Hraise | exact Hsent].
Defined.

(** ** The texts of numbers *)

(** X23.  The two-decimal text of a duration and the text of a token count
    are determined by the number: the latency line and the token line of a
    payload can read in one way only. *)
Theorem number_texts_determined :
  (forall x text text', two_decimals x text -> two_decimals x text' -> text = text') /\
  (forall t text text', count_text t text -> count_text t text' -> text = text') /\
  (forall x, two_decimals x (format_2f x)) /\
  (forall t, count_text t (py_str_int t)).
Proof.
  split; [exact two_decimals_unique|]. split; [exact count_text_unique|].
  split; [exact format_2f_two_decimals | exact py_str_int_count_text].
Qed.

(** ** Addresses the parser fails on *)

(** X24.  In SMTP mode with host, sender and recipient set and a subject
    of one line, a sender address of one line on which the address parser
    of the [email] package raises makes the dispatch raise that exception
    when the message is built: after the alert line, and before any
    connection to the mail server. *)
Theorem refused_sender_raises (config : AlertConfig) (env : environment)
    (reason : string) (duration : option Float.float) (total_tokens : option pyint)
    (st : state) (e : exn) :
  notify_mode config = "smtp" ->
  smtp_host config <> "" -> smtp_from config <> "" -> smtp_to config <> "" ->
  multiline ("LangSmith alert: " +:+ reason) = false ->
  multiline (smtp_from config) = false ->
  address_error env (smtp_from config) = Some e ->
  _alert config env reason duration total_tokens st =
    (Raise e,
     {| _start_times := _start_times st; trace := trace st ++ [LogAlert reason] |}).
Proof.
  intros Hmode Hhost Hfrom Hto Hsubject Hline Hparser.
  rewrite alert_smtp_run by assumption. cbv zeta.
  rewrite send_email_run.
  change (title (_build_payload reason duration total_tokens))
    with ("LangSmith alert: " +:+ reason).
  unfold header_error, address_header_error.
  rewrite Hsubject, Hline, Hparser. reflexivity.
Qed.

Lemma refused_sender_raises_witness :
  _alert config_bare_sender env_strict_addresses "LLM error: boom"
         (Some (Float.of_Z 3)) None initial_state =
    (Raise IndexError,
     {| _start_times := ∅; trace := [LogAlert "LLM error: boom"] |}).
Proof.
  apply (refused_sender_raises config_bare_sender env_strict_addresses
           "LLM error: boom" (Some (Float.of_Z 3)) None initial_state IndexError);
    try discriminate; reflexivity.
Defined.
